(** * Task and calendar tool layer of the agent backend

    A shallow embedding of
      - [agent_backend/toolsets/todo_tools.py]      (module [todo_tools]),
      - [archive/agent_backend/main.py]             (module [main]),
      - [archive/agent_backend/toolsets/calendar_tools.py]
                                                    (module [calendar_tools]),
    and the properties of the stores they operate on. *)

From Stdlib Require Import ZArith Lia Ascii.
From stdpp Require Import base list strings numbers pretty.

Local Open Scope Z_scope.

(** ** toolsets/todo_tools.py *)

Module todo_tools.

(** [class TodoItem(BaseModel)].  Python's [int] is unbounded: [Z]. *)
Record TodoItem := mkTodoItem {
  id : string;
  description : string;
  is_done : bool;
  priority : Z;
  estimated_duration_minutes : option Z;
  category : option string;
  project_or_path : option string
}.

(** Attribute assignment [todo.field = v]. *)
Definition set_is_done (v : bool) (t : TodoItem) : TodoItem :=
  mkTodoItem (id t) (description t) v (priority t)
             (estimated_duration_minutes t) (category t) (project_or_path t).

Definition set_priority (v : Z) (t : TodoItem) : TodoItem :=
  mkTodoItem (id t) (description t) (is_done t) v
             (estimated_duration_minutes t) (category t) (project_or_path t).

Definition set_estimated_duration_minutes (v : Z) (t : TodoItem) : TodoItem :=
  mkTodoItem (id t) (description t) (is_done t) (priority t)
             (Some v) (category t) (project_or_path t).

Definition set_category (v : string) (t : TodoItem) : TodoItem :=
  mkTodoItem (id t) (description t) (is_done t) (priority t)
             (estimated_duration_minutes t) (Some v) (project_or_path t).

Definition set_project_or_path (v : string) (t : TodoItem) : TodoItem :=
  mkTodoItem (id t) (description t) (is_done t) (priority t)
             (estimated_duration_minutes t) (category t) (Some v).

#[global] Instance TodoItem_inhabited : Inhabited TodoItem :=
  populate (mkTodoItem "" "" false 3 None None None).

#[global] Instance TodoItem_eq_dec : EqDecision TodoItem.
Proof. solve_decision. Defined.

(** The part of the interpreter state the module works on.  Python values
    of class type and lists are objects with an identity: a [TodoItem]
    lives in [objects], a list in [list_objects] and holds the identities
    of its elements; an identity is the allocation index.  [_todos] is the
    module global of that name: the identity of the list it is bound to. *)
Record Store := mkStore {
  objects : list TodoItem;
  list_objects : list (list nat);
  _todos : nat
}.

#[global] Instance Store_eq_dec : EqDecision Store.
Proof. solve_decision. Defined.

(** State after the module body has run: [_todos = []]. *)
Definition initial : Store := mkStore [] [[]] 0.

(** The elements of the list object [l], as values. *)
Definition contents (st : Store) (l : nat) : list TodoItem :=
  (λ r, objects st !!! r) <$> (list_objects st !!! l).

(** The [for todo in _todos: if todo.id == task_id:] scan shared by the
    update tools: position and identity of the first element of the list
    bound to [_todos] whose [id] is [task_id]. *)
Definition scan (st : Store) (task_id : string) : option (nat * nat) :=
  list_find (λ r, id (objects st !!! r) = task_id)
            (list_objects st !!! _todos st).

(** In-place mutation of the object [r]. *)
Definition mutate (st : Store) (r : nat) (f : TodoItem → TodoItem) : Store :=
  mkStore (alter f r (objects st)) (list_objects st) (_todos st).

(** [add_task_to_list]; [task_id] is the value of [str(uuid.uuid4())]. *)
Definition add_task_to_list (st : Store) (task_id : string)
    (description : string) (priority : Z)
    (estimated_duration_minutes : option Z)
    (category project_or_path : option string) : string * Store :=
  let todo_item := mkTodoItem task_id description false priority
                     estimated_duration_minutes category project_or_path in
  let r := length (objects st) in
  ("Task added with ID: " +:+ task_id,
   mkStore (objects st ++ [todo_item])
           (alter (λ l, l ++ [r]) (_todos st) (list_objects st))
           (_todos st)).

(** [list_current_tasks]: [return _todos], the list object itself. *)
Definition list_current_tasks (st : Store) : nat := _todos st.

(** [remove_task_from_list]: the comprehension builds a new list object
    and [global _todos] rebinds the module global to it. *)
Definition remove_task_from_list (st : Store) (task_id : string)
    : string * Store :=
  let old := list_objects st !!! _todos st in
  let before_count := length old in
  let new := filter (λ r, id (objects st !!! r) ≠ task_id) old in
  let st' := mkStore (objects st) (list_objects st ++ [new])
                     (length (list_objects st)) in
  let after_count := length new in
  if decide (before_count = after_count)
  then ("No task found with ID: " +:+ task_id, st')
  else ("Task with ID: " +:+ task_id +:+ " has been removed", st').

Definition update_task_status (st : Store) (task_id : string)
    (is_done : bool) : string * Store :=
  match scan st task_id with
  | Some (_, r) =>
      let status := if is_done then "completed"
                    else "marked as not complete" in
      ("Task with ID: " +:+ task_id +:+ " has been " +:+ status,
       mutate st r (set_is_done is_done))
  | None => ("No task found with ID: " +:+ task_id, st)
  end.

Definition update_task_priority (st : Store) (task_id : string)
    (priority : Z) : string * Store :=
  if decide (priority < 1 ∨ priority > 5)
  then ("Priority must be between 1 and 5", st)
  else match scan st task_id with
       | Some (_, r) =>
           ("Task with ID: " +:+ task_id +:+
              " has been updated to priority " +:+ pretty priority,
            mutate st r (set_priority priority))
       | None => ("No task found with ID: " +:+ task_id, st)
       end.

Definition update_task_estimated_duration (st : Store) (task_id : string)
    (estimated_duration_minutes : Z) : string * Store :=
  if decide (estimated_duration_minutes ≤ 0)
  then ("Duration must be greater than 0 minutes", st)
  else match scan st task_id with
       | Some (_, r) =>
           ("Task with ID: " +:+ task_id +:+
              " has been updated with estimated duration of " +:+
              pretty estimated_duration_minutes +:+ " minutes",
            mutate st r
              (set_estimated_duration_minutes estimated_duration_minutes))
       | None => ("No task found with ID: " +:+ task_id, st)
       end.

(** [', '.join(changes)] *)
Fixpoint join (sep : string) (l : list string) : string :=
  match l with
  | [] => ""
  | [s] => s
  | s :: l' => s +:+ sep +:+ join sep l'
  end.

Definition update_task_metadata (st : Store) (task_id : string)
    (category project_or_path : option string) : string * Store :=
  match scan st task_id with
  | Some (_, r) =>
      let changes := [] in
      let '(st, changes) :=
        match category with
        | Some c => (mutate st r (set_category c),
                     changes ++ ["category='" +:+ c +:+ "'"])
        | None => (st, changes)
        end in
      let '(st, changes) :=
        match project_or_path with
        | Some p => (mutate st r (set_project_or_path p),
                     changes ++ ["project_or_path='" +:+ p +:+ "'"])
        | None => (st, changes)
        end in
      match changes with
      | [] => ("No changes specified", st)
      | _ => ("Task with ID: " +:+ task_id +:+
                " has been updated with " +:+ join ", " changes, st)
      end
  | None => ("No task found with ID: " +:+ task_id, st)
  end.

(** The tasks a caller of [list_current_tasks] receives. *)
Definition tasks (st : Store) : list TodoItem :=
  contents st (list_current_tasks st).

(** One invocation of a mutating tool by the agent runtime. *)
Inductive call :=
| AddTask (task_id description : string) (priority : Z)
          (estimated_duration_minutes : option Z)
          (category project_or_path : option string)
| RemoveTask (task_id : string)
| UpdateStatus (task_id : string) (is_done : bool)
| UpdatePriority (task_id : string) (priority : Z)
| UpdateEstimatedDuration (task_id : string) (minutes : Z)
| UpdateMetadata (task_id : string) (category project_or_path : option string).

Definition exec (c : call) (st : Store) : string * Store :=
  match c with
  | AddTask u d p e cat pp => add_task_to_list st u d p e cat pp
  | RemoveTask t => remove_task_from_list st t
  | UpdateStatus t b => update_task_status st t b
  | UpdatePriority t p => update_task_priority st t p
  | UpdateEstimatedDuration t m => update_task_estimated_duration st t m
  | UpdateMetadata t cat pp => update_task_metadata st t cat pp
  end.

(** The identifier an invocation addresses. *)
Definition target (c : call) : option string :=
  match c with
  | AddTask _ _ _ _ _ _ => None
  | RemoveTask t | UpdateStatus t _ | UpdatePriority t _
  | UpdateEstimatedDuration t _ | UpdateMetadata t _ _ => Some t
  end.

(** [uuid.uuid4()] yields an identifier no earlier task carries. *)
Definition admissible (st : Store) (c : call) : Prop :=
  match c with
  | AddTask u _ _ _ _ _ => u ∉ id <$> objects st
  | _ => True
  end.

(** The stores the tool layer can be in. *)
Inductive reachable : Store → Prop :=
| reachable_initial : reachable initial
| reachable_exec st c :
    reachable st → admissible st c → reachable (exec c st).2.

(** Well-formedness of a store: lists hold identities of live objects,
    each once; identifiers are unique; [_todos] is bound to a list. *)
Record wf (st : Store) : Prop := {
  wf_lists : ∀ l, l ∈ list_objects st →
             NoDup l ∧ ∀ r, r ∈ l → (r < length (objects st))%nat;
  wf_ids : NoDup (id <$> objects st);
  wf_todos : (_todos st < length (list_objects st))%nat
}.

End todo_tools.

(** ** main.py: the gateway's direct read of the task store *)

Module main.

(** [class TaskItem(BaseModel)] *)
Record TaskItem := mkTaskItem {
  id : string;
  description : string;
  is_done : bool;
  priority : Z;
  estimated_duration_minutes : option Z;
  category : option string;
  project_or_path : option string
}.

(** Field-wise conversion done by [TaskListResponse(tasks=...)]. *)
Definition TaskItem_of (t : todo_tools.TodoItem) : TaskItem :=
  mkTaskItem (todo_tools.id t) (todo_tools.description t)
             (todo_tools.is_done t) (todo_tools.priority t)
             (todo_tools.estimated_duration_minutes t)
             (todo_tools.category t) (todo_tools.project_or_path t).

(** The process: the state of [toolsets.todo_tools] and the name
    [_todos] of module [main], bound once by
    [from toolsets.todo_tools import _todos] and never assigned again. *)
Record Process := mkProcess {
  tools : todo_tools.Store;
  _todos : nat
}.

(** Import time: [main._todos] gets the object [todo_tools._todos] is
    bound to at that moment. *)
Definition startup : Process :=
  mkProcess todo_tools.initial (todo_tools._todos todo_tools.initial).

(** A tool invocation acts on the tool module's state only. *)
Definition tool_call (c : todo_tools.call) (p : Process) : string * Process :=
  let '(out, st) := todo_tools.exec c (tools p) in
  (out, mkProcess st (_todos p)).

Definition run (cs : list todo_tools.call) (p : Process) : Process :=
  foldl (λ p c, (tool_call c p).2) p cs.

(** [get_todos]: [TaskListResponse(tasks=_todos)]. *)
Definition get_todos (p : Process) : list TaskItem :=
  TaskItem_of <$> todo_tools.contents (tools p) (_todos p).

(** What the tool path reports at the same moment, in the same shape. *)
Definition list_current_tasks (p : Process) : list TaskItem :=
  TaskItem_of <$> todo_tools.contents (tools p)
                    (todo_tools.list_current_tasks (tools p)).

End main.

(** ** toolsets/calendar_tools.py *)

Module calendar_tools.

(** *** The part of the standard library's [datetime] the module uses

    A timezone-naive [datetime] is an instant between 0001-01-01T00:00:00
    and 9999-12-31T23:59:59.999999 with microsecond resolution; it is
    represented by the number of microseconds since the first of them.  A
    [timedelta] is a number of microseconds.  Arithmetic that leaves the
    range of either type raises [OverflowError]. *)
Definition datetime := Z.
Definition timedelta := Z.

Definition us_per_second : Z := 1000000.
Definition us_per_minute : Z := 60 * us_per_second.
Definition us_per_day : Z := 86400 * us_per_second.

(** [date.max.toordinal()] *)
Definition MAXORDINAL : Z := 3652059.

Definition datetime_in_range (d : Z) : Prop :=
  0 ≤ d < MAXORDINAL * us_per_day.

(** A [timedelta] holds at most 999999999 days in either direction. *)
Definition timedelta_in_range (td : Z) : Prop :=
  -999999999 ≤ td `div` us_per_day ≤ 999999999.

#[global] Instance datetime_in_range_dec d : Decision (datetime_in_range d).
Proof. unfold datetime_in_range. apply _. Defined.
#[global] Instance timedelta_in_range_dec d : Decision (timedelta_in_range d).
Proof. unfold timedelta_in_range. apply _. Defined.

(** [timedelta(minutes=m)] for an [int]; [None] is [OverflowError]. *)
Definition timedelta_minutes (m : Z) : option timedelta :=
  if decide (timedelta_in_range (m * us_per_minute))
  then Some (m * us_per_minute) else None.

(** [d + td]; [None] is [OverflowError]. *)
Definition datetime_add (d : datetime) (td : timedelta) : option datetime :=
  if decide (datetime_in_range (d + td)) then Some (d + td) else None.

(** [d1 - d2]: always within the range of [timedelta]. *)
Definition datetime_sub (d1 d2 : datetime) : timedelta := d1 - d2.

(** [timedelta(minutes=td.total_seconds() / 60)]: the quotient is a float
    and the constructor rounds it back to microseconds.  Both conversions
    are exact when [td] is a whole number of minutes, which is the case
    for the difference of end and start of every event the tools build
    (see [calendar_facts.whole_minutes_create] and
    [calendar_facts.whole_minutes_update]); the model keeps the
    microseconds. *)
Definition timedelta_of_total_minutes (td : timedelta) : timedelta := td.

(** [d.date()], as the number of days since 0001-01-01. *)
Definition datetime_date (d : datetime) : Z := d `div` us_per_day.

(** The calendar helpers of the library. *)
Definition _is_leap (year : Z) : bool :=
  bool_decide (year `mod` 4 = 0 ∧ (year `mod` 100 ≠ 0 ∨ year `mod` 400 = 0)).

Definition _days_before_year (year : Z) : Z :=
  let y := year - 1 in y * 365 + y `div` 4 - y `div` 100 + y `div` 400.

Definition _days_in_month (year month : Z) : Z :=
  if decide (month = 2) then (if _is_leap year then 29 else 28)
  else if decide (month ∈ [4; 6; 9; 11]) then 30 else 31.

Definition _days_before_month (year month : Z) : Z :=
  foldr (λ m acc, _days_in_month year m + acc) 0 (seqZ 1 (month - 1)).

Definition _ymd2ord (year month day : Z) : Z :=
  _days_before_year year + _days_before_month year month + day.

(** [datetime(year, month, day, hour, minute, second, microsecond)];
    [None] is [ValueError]. *)
Definition make_datetime (year month day hour minute second microsecond : Z)
    : option datetime :=
  if decide (1 ≤ year ≤ 9999 ∧ 1 ≤ month ≤ 12
             ∧ 1 ≤ day ≤ _days_in_month year month
             ∧ 0 ≤ hour ≤ 23 ∧ 0 ≤ minute ≤ 59 ∧ 0 ≤ second ≤ 59
             ∧ 0 ≤ microsecond ≤ 999999)
  then Some ((_ymd2ord year month day - 1) * us_per_day
             + ((hour * 60 + minute) * 60 + second) * us_per_second
             + microsecond)
  else None.

Definition digit (c : Ascii.ascii) : option Z :=
  let n := Z.of_N (Ascii.N_of_ascii c) in
  if decide (48 ≤ n ≤ 57) then Some (n - 48) else None.

(** A run of decimal digits, read as a number. *)
Definition number (cs : list Ascii.ascii) : option Z :=
  foldl (λ acc c, n ← acc; d ← digit c; Some (10 * n + d)) (Some 0) cs.

(** The time part [HH[:MM[:SS[.fff[fff]]]]]. *)
Definition parse_time (cs : list Ascii.ascii) : option (Z * Z * Z * Z) :=
  let colon (c : Ascii.ascii) := bool_decide (c = ":"%char) in
  match cs with
  | [h1; h2] =>
      h ← number [h1; h2]; Some (h, 0, 0, 0)
  | [h1; h2; c1; m1; m2] =>
      if colon c1
      then h ← number [h1; h2]; m ← number [m1; m2]; Some (h, m, 0, 0)
      else None
  | h1 :: h2 :: c1 :: m1 :: m2 :: c2 :: s1 :: s2 :: frac =>
      if colon c1 && colon c2
      then h ← number [h1; h2]; m ← number [m1; m2]; s ← number [s1; s2];
           match frac with
           | [] => Some (h, m, s, 0)
           | [p; f1; f2; f3] =>
               if bool_decide (p = "."%char)
               then f ← number [f1; f2; f3]; Some (h, m, s, f * 1000)
               else None
           | [p; f1; f2; f3; f4; f5; f6] =>
               if bool_decide (p = "."%char)
               then f ← number [f1; f2; f3; f4; f5; f6]; Some (h, m, s, f)
               else None
           | _ => None
           end
      else None
  | _ => None
  end.

(** [datetime.fromisoformat] on the timezone-naive texts
    [YYYY-MM-DD] and [YYYY-MM-DD?HH[:MM[:SS[.fff[fff]]]]], where [?] is
    any one character; [None] is [ValueError]. *)
Definition fromisoformat (date_string : string) : option datetime :=
  let cs := String.list_ascii_of_string date_string in
  let dash (c : Ascii.ascii) := bool_decide (c = "-"%char) in
  match take 10 cs with
  | [y1; y2; y3; y4; c1; m1; m2; c2; d1; d2] =>
      if dash c1 && dash c2
      then year ← number [y1; y2; y3; y4];
           month ← number [m1; m2];
           day ← number [d1; d2];
           '(hour, minute, second, microsecond) ←
             match drop 10 cs with
             | [] => Some (0, 0, 0, 0)
             | _ :: tstr => parse_time tstr
             end;
           make_datetime year month day hour minute second microsecond
      else None
  | _ => None
  end.

(** *** The module itself *)

(** [class CalendarEvent(BaseModel)] *)
Record CalendarEvent := mkCalendarEvent {
  id : string;
  title : string;
  start_time : datetime;
  end_time : datetime;
  description : option string;
  location : option string
}.

#[global] Instance CalendarEvent_eq_dec : EqDecision CalendarEvent.
Proof. unfold datetime. solve_decision. Defined.

(** Attribute assignment [event.field = v]. *)
Definition set_start_time (v : datetime) (e : CalendarEvent) : CalendarEvent :=
  mkCalendarEvent (id e) (title e) v (end_time e) (description e) (location e).

Definition set_end_time (v : datetime) (e : CalendarEvent) : CalendarEvent :=
  mkCalendarEvent (id e) (title e) (start_time e) v (description e) (location e).

(** How a call ends: with a returned text or an exception that leaves
    the function. *)
Inductive exn := OverflowError.
Inductive outcome :=
| Return (text : string)
| Raise (e : exn).

(** The state is the list bound to the module global [_calendar_events].
    Every event object is appended once, when it is created, so an
    in-place change of an event is the change of one position. *)
Abbreviation Store := (list CalendarEvent).

(** [create_calendar_event]; [event_id] is the value of
    [str(uuid.uuid4())].  Only [ValueError] is caught. *)
Definition create_calendar_event (_calendar_events : Store)
    (event_id : string) (title start_time : string) (duration_minutes : Z)
    (description location : option string) : outcome * Store :=
  match fromisoformat start_time with
  | Some start_datetime =>
      match timedelta_minutes duration_minutes
            ≫= datetime_add start_datetime with
      | Some end_datetime =>
          let event := mkCalendarEvent event_id title start_datetime
                         end_datetime description location in
          (Return ("Calendar event created with ID: " +:+ event_id),
           _calendar_events ++ [event])
      | None => (Raise OverflowError, _calendar_events)
      end
  | None =>
      (Return "Error: Invalid datetime format. Please use ISO format (YYYY-MM-DDTHH:MM:SS)",
       _calendar_events)
  end.

(** [list_calendar_events] *)
Definition list_calendar_events (_calendar_events : Store)
    (date : option string) : list CalendarEvent :=
  match date with
  | None => _calendar_events
  | Some date =>
      match fromisoformat date with
      | Some filter_date =>
          foldl (λ filtered_events event,
                   let event_date := datetime_date (start_time event) in
                   if decide (event_date = datetime_date filter_date)
                   then filtered_events ++ [event]
                   else filtered_events)
                [] _calendar_events
      | None => _calendar_events
      end
  end.

(** [delete_calendar_event] *)
Definition delete_calendar_event (_calendar_events : Store)
    (event_id : string) : outcome * Store :=
  let before_count := length _calendar_events in
  let _calendar_events :=
    filter (λ event, id event ≠ event_id) _calendar_events in
  let after_count := length _calendar_events in
  if decide (before_count = after_count)
  then (Return ("No event found with ID: " +:+ event_id), _calendar_events)
  else (Return ("Event with ID: " +:+ event_id +:+ " has been deleted"),
        _calendar_events).

(** A block of the loop body of [update_calendar_event_time] either
    leaves the function, with the event as changed so far, or falls
    through to the next statement. *)
Definition block (A : Type) : Type := (outcome * CalendarEvent + A)%type.

(** [if start_time is not None: try: ... except ValueError: ...] *)
Definition shift_start (event : CalendarEvent) (changes : list string)
    (start_time : option string) : block (CalendarEvent * list string) :=
  match start_time with
  | Some start_time =>
      match fromisoformat start_time with
      | Some new_start =>
          let duration :=
            datetime_sub (end_time event) (calendar_tools.start_time event) in
          let event := set_start_time new_start event in
          match datetime_add new_start (timedelta_of_total_minutes duration) with
          | Some new_end =>
              inr (set_end_time new_end event, changes ++ ["start time"])
          | None => inl (Raise OverflowError, event)
          end
      | None =>
          inl (Return "Error: Invalid datetime format for start_time", event)
      end
  | None => inr (event, changes)
  end.

(** [if duration_minutes is not None: ...] *)
Definition override_duration (event : CalendarEvent) (changes : list string)
    (duration_minutes : option Z) : block (CalendarEvent * list string) :=
  match duration_minutes with
  | Some duration_minutes =>
      if decide (duration_minutes ≤ 0)
      then inl (Return "Error: Duration must be greater than 0 minutes", event)
      else match timedelta_minutes duration_minutes
                 ≫= datetime_add (start_time event) with
           | Some new_end =>
               inr (set_end_time new_end event, changes ++ ["duration"])
           | None => inl (Raise OverflowError, event)
           end
  | None => inr (event, changes)
  end.

(** The body of [if event.id == event_id:]. *)
Definition update_event (event : CalendarEvent) (event_id : string)
    (start_time : option string) (duration_minutes : option Z)
    : outcome * CalendarEvent :=
  match shift_start event [] start_time with
  | inl exit => exit
  | inr (event, changes) =>
      match override_duration event changes duration_minutes with
      | inl exit => exit
      | inr (event, changes) =>
          match changes with
          | [] => (Return "No changes specified", event)
          | _ => (Return ("Event with ID: " +:+ event_id +:+
                            " has been updated (" +:+
                            todo_tools.join ", " changes +:+ ")"), event)
          end
      end
  end.

(** [update_calendar_event_time] *)
Fixpoint update_calendar_event_time (_calendar_events : Store)
    (event_id : string) (start_time : option string)
    (duration_minutes : option Z) : outcome * Store :=
  match _calendar_events with
  | event :: rest =>
      if decide (id event = event_id)
      then let '(out, event) :=
             update_event event event_id start_time duration_minutes in
           (out, event :: rest)
      else let '(out, rest) :=
             update_calendar_event_time rest event_id start_time
                                        duration_minutes in
           (out, event :: rest)
  | [] => (Return ("No event found with ID: " +:+ event_id), [])
  end.

(** The event does not end before it starts. *)
Definition ordered (event : CalendarEvent) : Prop :=
  start_time event ≤ end_time event.

(** The event lasts a whole number of minutes. *)
Definition whole_minutes (event : CalendarEvent) : Prop :=
  (end_time event - start_time event) `mod` us_per_minute = 0.

End calendar_tools.

(** ** main.py: the gateway's direct read of the calendar *)

Module main_calendar.
Import calendar_tools.

(** *** [datetime.isoformat] of the standard library *)

Definition _DAYS_IN_MONTH : list Z :=
  [-1; 31; 28; 31; 30; 31; 30; 31; 31; 30; 31; 30; 31].

Definition _DAYS_BEFORE_MONTH : list Z :=
  [-1; 0; 31; 59; 90; 120; 151; 181; 212; 243; 273; 304; 334].

(** Days in 400, 100 and 4 years. *)
Definition _DI400Y : Z := 146097.
Definition _DI100Y : Z := 36524.
Definition _DI4Y : Z := 1461.

(** [_ord2ymd]: year, month and day of the day number [n], where
    0001-01-01 is day 1. *)
Definition _ord2ymd (n : Z) : Z * Z * Z :=
  let n := n - 1 in
  let n400 := n `div` _DI400Y in
  let n := n `mod` _DI400Y in
  let year := n400 * 400 + 1 in
  let n100 := n `div` _DI100Y in
  let n := n `mod` _DI100Y in
  let n4 := n `div` _DI4Y in
  let n := n `mod` _DI4Y in
  let n1 := n `div` 365 in
  let n := n `mod` 365 in
  let year := year + n100 * 100 + n4 * 4 + n1 in
  if decide (n1 = 4 ∨ n100 = 4) then (year - 1, 12, 31)
  else
    let leapyear := bool_decide (n1 = 3 ∧ (n4 ≠ 24 ∨ n100 = 3)) in
    let month := (n + 50) ≫ 5 in
    let preceding :=
      _DAYS_BEFORE_MONTH !!! Z.to_nat month
      + (if bool_decide (month > 2) && leapyear then 1 else 0) in
    if decide (preceding > n)
    then let month := month - 1 in
         let preceding :=
           preceding
           - (_DAYS_IN_MONTH !!! Z.to_nat month
              + (if bool_decide (month = 2) && leapyear then 1 else 0)) in
         (year, month, n - preceding + 1)
    else (year, month, n - preceding + 1).

(** The decimal digit [k]. *)
Definition digit_char (k : Z) : Ascii.ascii :=
  Ascii.ascii_of_N (Z.to_N (48 + k)).

(** ["%02d" % n], ["%04d" % n], ["%06d" % n] for a number that fits. *)
Definition pad2 (n : Z) : list Ascii.ascii :=
  [digit_char (n `div` 10); digit_char (n `mod` 10)].

Definition pad4 (n : Z) : list Ascii.ascii :=
  [digit_char (n `div` 1000); digit_char ((n `div` 100) `mod` 10);
   digit_char ((n `div` 10) `mod` 10); digit_char (n `mod` 10)].

Definition pad6 (n : Z) : list Ascii.ascii :=
  [digit_char (n `div` 100000); digit_char ((n `div` 10000) `mod` 10);
   digit_char ((n `div` 1000) `mod` 10); digit_char ((n `div` 100) `mod` 10);
   digit_char ((n `div` 10) `mod` 10); digit_char (n `mod` 10)].

(** [d.isoformat()]: [YYYY-MM-DDTHH:MM:SS], followed by [.ffffff] when
    the microseconds are not zero. *)
Definition isoformat (d : datetime) : string :=
  let '(year, month, day) := _ord2ymd (d `div` us_per_day + 1) in
  let t := d `mod` us_per_day in
  let hour := t `div` (3600 * us_per_second) in
  let minute := (t `div` (60 * us_per_second)) `mod` 60 in
  let second := (t `div` us_per_second) `mod` 60 in
  let microsecond := t `mod` us_per_second in
  String.string_of_list_ascii
    (pad4 year ++ ["-"%char] ++ pad2 month ++ ["-"%char] ++ pad2 day
     ++ ["T"%char] ++ pad2 hour ++ [":"%char] ++ pad2 minute
     ++ [":"%char] ++ pad2 second
     ++ (if decide (microsecond = 0) then []
         else "."%char :: pad6 microsecond)).

(** *** The endpoint *)

(** [class CalendarEvent(BaseModel)] of [main]: the times are text. *)
Record CalendarEvent := mkCalendarEvent {
  id : string;
  title : string;
  start_time : string;
  end_time : string;
  description : option string;
  location : option string
}.

(** The conversion in the loop of [get_calendar]. *)
Definition CalendarEvent_of (event : calendar_tools.CalendarEvent)
    : CalendarEvent :=
  mkCalendarEvent (calendar_tools.id event) (calendar_tools.title event)
    (isoformat (calendar_tools.start_time event))
    (isoformat (calendar_tools.end_time event))
    (calendar_tools.description event) (calendar_tools.location event).

(** [get_calendar], given the list the name [_calendar_events] of
    [main] is bound to.  [if date:] holds for a text that is not
    empty. *)
Definition get_calendar (_calendar_events : list calendar_tools.CalendarEvent)
    (date : option string) : list CalendarEvent :=
  let filtered_events :=
    match date with
    | None | Some "" => _calendar_events
    | Some date =>
        match fromisoformat date with
        | Some d =>
            let filter_date := datetime_date d in
            filter (λ e, datetime_date (calendar_tools.start_time e)
                         = filter_date) _calendar_events
        | None => _calendar_events
        end
    end in
  CalendarEvent_of <$> filtered_events.

(** The day [r] of the first 400 years has a date of the calendar, and
    that date has the day number [r + 1]. *)
Definition cycle_day_ok (r : Z) : bool :=
  let '(y, m, d) := _ord2ymd (r + 1) in
  bool_decide (1 ≤ y ≤ 400 ∧ 1 ≤ m ≤ 12 ∧ 1 ≤ d ≤ _days_in_month y m
               ∧ _ymd2ord y m d = r + 1
               ∧ (r + 1 ≤ 145731 → y ≤ 399)).

(** The check run over the days before day [n]. *)
Definition cycle_checked_upto (n : N) : Z * bool :=
  N.iter n (λ '(r, ok), (r + 1, ok && cycle_day_ok r)) (0, true).

End main_calendar.

(** ** Events whose times are datetimes *)

Module calendar_invariant.

(** Start and end of the event are within the range of [datetime]. *)
Definition representable (event : calendar_tools.CalendarEvent) : Prop :=
  calendar_tools.datetime_in_range (calendar_tools.start_time event)
  ∧ calendar_tools.datetime_in_range (calendar_tools.end_time event).

End calendar_invariant.

(** ** The process as the gateway and the tools share it *)

Module main_invariant.



End main_invariant.

(** ** Facts about the task store *)

Module todo_facts.
Import todo_tools.

Section mutate.
Context (f : TodoItem → TodoItem) (Hid : ∀ t, id (f t) = id t).

Lemma id_alter (r : nat) (objs : list TodoItem) (r' : nat) :
  id (alter f r objs !!! r') = id (objs !!! r').
Proof.
  rewrite list_lookup_total_alter.
  case_decide as H; [destruct H as [-> _]; apply Hid | done].
Qed.

Lemma ids_alter (r : nat) (objs : list TodoItem) :
  id <$> alter f r objs = id <$> objs.
Proof.
  rewrite (list_fmap_alter id f (λ x, x)).
  - by apply list_alter_id.
  - apply Forall_forall. intros; apply Hid.
Qed.

Lemma scan_mutate st r tid : scan (mutate st r f) tid = scan st tid.
Proof.
  unfold scan; simpl. apply list_find_ext. intros r'. by rewrite id_alter.
Qed.

Lemma wf_mutate st r : wf st → wf (mutate st r f).
Proof.
  intros [Hl Hi Ht]. split; simpl; [|by rewrite ids_alter|done].
  intros l Hin. rewrite length_alter. by apply Hl.
Qed.

Lemma tasks_mutate st i r tid :
  wf st → scan st tid = Some (i, r) →
  tasks (mutate st r f) = alter f i (tasks st).
Proof.
  intros [Hl _ Ht] Hs. unfold scan in Hs.
  apply list_find_Some in Hs as (Hi & _ & _).
  unfold tasks, contents, list_current_tasks; simpl.
  set (l := list_objects st !!! _todos st) in *.
  assert (Hlin : l ∈ list_objects st).
  { apply lookup_lt_is_Some_2 in Ht as [l' Hl'].
    unfold l. rewrite (list_lookup_total_correct _ _ _ Hl').
    by eapply list_elem_of_lookup_2. }
  destruct (Hl l Hlin) as [Hnd Hlt].
  apply list_eq. intros j.
  rewrite list_lookup_alter, !list_lookup_fmap.
  case_decide as Hj.
  - subst j. rewrite Hi; simpl. f_equal.
    rewrite list_lookup_total_alter_eq; [done|].
    apply Hlt. by eapply list_elem_of_lookup_2.
  - destruct (l !! j) as [r'|] eqn:Hr'; simpl; [|done]. f_equal.
    rewrite list_lookup_total_alter_ne; [done|].
    intros ->. apply Hj. by eapply NoDup_lookup.
Qed.
End mutate.

Lemma wf_initial : wf initial.
Proof.
  split; simpl; [|constructor|lia].
  intros l ->%list_elem_of_singleton. split; [constructor|].
  intros r Hr. by apply elem_of_nil in Hr.
Qed.

Lemma wf_add st u d p e c pp :
  wf st → u ∉ id <$> objects st → wf (add_task_to_list st u d p e c pp).2.
Proof.
  intros [Hl Hi Ht] Hu. split; simpl.
  - intros l (k & Hk)%list_elem_of_lookup. rewrite length_app; simpl.
    rewrite list_lookup_alter in Hk. case_decide as Hd.
    + subst k.
      destruct (list_objects st !! _todos st) as [l0|] eqn:Hl0; simplify_eq/=.
      destruct (Hl l0) as [Hnd Hlt]; [by eapply list_elem_of_lookup_2|].
      split.
      * apply NoDup_app. split_and!; [done| |apply NoDup_singleton].
        intros r Hr ->%list_elem_of_singleton. apply Hlt in Hr. lia.
      * intros r [Hr| ->%list_elem_of_singleton]%elem_of_app; [|lia].
        apply Hlt in Hr. lia.
    + destruct (Hl l) as [Hnd Hlt]; [by eapply list_elem_of_lookup_2|].
      split; [done|]. intros r Hr. apply Hlt in Hr. lia.
  - rewrite fmap_app; simpl. apply NoDup_app. split_and!; [done| |apply NoDup_singleton].
    intros x Hx ->%list_elem_of_singleton. done.
  - by rewrite length_alter.
Qed.

Lemma wf_remove st tid : wf st → wf (remove_task_from_list st tid).2.
Proof.
  intros [Hl Hi Ht]. unfold remove_task_from_list.
  case_decide; simpl; (split; simpl; [|done|rewrite length_app; simpl; lia]).
  all: intros l [Hin| ->%list_elem_of_singleton]%elem_of_app; [by apply Hl|].
  all: assert (Hlin : list_objects st !!! _todos st ∈ list_objects st)
    by (apply lookup_lt_is_Some_2 in Ht as [l' Hl'];
        rewrite (list_lookup_total_correct _ _ _ Hl');
        by eapply list_elem_of_lookup_2).
  all: destruct (Hl _ Hlin) as [Hnd Hlt]; split; [by apply NoDup_filter|].
  all: intros r [_ Hr]%list_elem_of_filter; by apply Hlt.
Qed.

Lemma wf_exec st c : wf st → admissible st c → wf (exec c st).2.
Proof.
  intros Hwf Hadm.
  destruct c as [u d p e cat pp|tid|tid b|tid p|tid m|tid cat pp]; simpl.
  - by apply wf_add.
  - by apply wf_remove.
  - unfold update_task_status. destruct (scan st tid) as [[i r]|]; [|done].
    by apply wf_mutate.
  - unfold update_task_priority. case_decide; [done|].
    destruct (scan st tid) as [[i r]|]; [|done]. by apply wf_mutate.
  - unfold update_task_estimated_duration. case_decide; [done|].
    destruct (scan st tid) as [[i r]|]; [|done]. by apply wf_mutate.
  - unfold update_task_metadata.
    destruct (scan st tid) as [[i r]|]; [|done].
    destruct cat as [cat|], pp as [pp|]; simpl;
      repeat apply wf_mutate; done.
Qed.

Lemma reachable_wf st : reachable st → wf st.
Proof. induction 1; [apply wf_initial | by apply wf_exec]. Qed.

Lemma todos_bound st :
  wf st → list_objects st !!! _todos st ∈ list_objects st.
Proof.
  intros [_ _ Ht]. apply lookup_lt_is_Some_2 in Ht as [l Hl].
  rewrite (list_lookup_total_correct _ _ _ Hl).
  by eapply list_elem_of_lookup_2.
Qed.

Lemma objects_inj st r1 r2 :
  wf st → (r1 < length (objects st))%nat → (r2 < length (objects st))%nat →
  id (objects st !!! r1) = id (objects st !!! r2) → r1 = r2.
Proof.
  intros [_ Hi _] H1 H2 Heq.
  apply (NoDup_lookup _ _ _ (id (objects st !!! r1)) Hi).
  - rewrite list_lookup_fmap, (list_lookup_lookup_total_lt _ _ H1). done.
  - rewrite list_lookup_fmap, (list_lookup_lookup_total_lt _ _ H2), Heq. done.
Qed.

Lemma tasks_ids_NoDup st : wf st → NoDup (id <$> tasks st).
Proof.
  intros Hwf. unfold tasks, contents, list_current_tasks.
  rewrite <- list_fmap_compose.
  destruct (wf_lists _ Hwf _ (todos_bound _ Hwf)) as [Hnd Hlt].
  apply NoDup_fmap_2_strong; [|done].
  intros r1 r2 Hr1 Hr2 Heq. simpl in Heq.
  eapply objects_inj; eauto.
Qed.

Lemma scan_located st i t tid :
  wf st → tasks st !! i = Some t → id t = tid →
  ∃ r, scan st tid = Some (i, r).
Proof.
  intros Hwf Hi Ht. unfold tasks, contents, list_current_tasks in Hi.
  apply list_lookup_fmap_Some in Hi as (r & -> & Hr).
  destruct (wf_lists _ Hwf _ (todos_bound _ Hwf)) as [Hnd Hlt].
  exists r. apply list_find_Some. split_and!; [done..|].
  intros j y Hy Hji Hid. rewrite <- Ht in Hid.
  assert (y = r) as ->.
  { eapply objects_inj; eauto using list_elem_of_lookup_2. }
  pose proof (NoDup_lookup _ _ _ _ Hnd Hy Hr). lia.
Qed.

Lemma deref_filter (objs : list TodoItem) tid (l : list nat) :
  (λ r, objs !!! r) <$> filter (λ r, id (objs !!! r) ≠ tid) l
  = filter (λ t, id t ≠ tid) ((λ r, objs !!! r) <$> l).
Proof.
  induction l as [|r l IH]; [done|].
  rewrite fmap_cons, !filter_cons; case_decide; csimpl; by rewrite IH.
Qed.

Lemma tasks_remove st tid :
  tasks (remove_task_from_list st tid).2
  = filter (λ t, id t ≠ tid) (tasks st).
Proof.
  unfold remove_task_from_list, tasks, contents, list_current_tasks.
  case_decide; simpl.
  all: rewrite list_lookup_total_middle by done; apply deref_filter.
Qed.

Lemma remove_message st tid :
  (remove_task_from_list st tid).1 =
  if decide (length (tasks st) = length (tasks (remove_task_from_list st tid).2))
  then "No task found with ID: " +:+ tid
  else "Task with ID: " +:+ tid +:+ " has been removed".
Proof.
  unfold remove_task_from_list, tasks, contents, list_current_tasks.
  case_decide as H; simpl; rewrite list_lookup_total_middle by done;
    rewrite !length_fmap; [by rewrite decide_True|by rewrite decide_False].
Qed.

Lemma filter_absent (ts : list TodoItem) tid :
  tid ∉ id <$> ts → filter (λ t, id t ≠ tid) ts = ts.
Proof.
  induction ts as [|t ts IH]; [done|]. rewrite fmap_cons, not_elem_of_cons.
  intros [Hne Hts]. rewrite filter_cons_True by done. by rewrite IH.
Qed.

Lemma filter_present (ts : list TodoItem) tid :
  NoDup (id <$> ts) → tid ∈ id <$> ts →
  (length (filter (λ t, id t ≠ tid) ts) + 1 = length ts)%nat.
Proof.
  induction ts as [|t ts IH]; [by intros _ ?%elem_of_nil|].
  rewrite fmap_cons, NoDup_cons, elem_of_cons. intros [Hnin Hnd] Hin.
  destruct (decide (id t = tid)) as [Heq|Hne].
  - rewrite filter_cons_False by (intros ?; done).
    rewrite filter_absent by congruence. simpl; lia.
  - rewrite filter_cons_True by done. simpl.
    destruct Hin as [?|Hin]; [congruence|]. rewrite <- (IH Hnd Hin). lia.
Qed.

Lemma filter_alter f (r : nat) (objs : list TodoItem) tid (l : list nat) :
  (∀ t, id (f t) = id t) → id (objs !!! r) = tid →
  filter (λ t, id t ≠ tid) ((λ r', alter f r objs !!! r') <$> l)
  = filter (λ t, id t ≠ tid) ((λ r', objs !!! r') <$> l).
Proof.
  intros Hf Hr. induction l as [|r' l IH]; [done|].
  rewrite !fmap_cons, !filter_cons, IH.
  rewrite (id_alter f Hf). case_decide; [|done]. f_equal.
  rewrite list_lookup_total_alter. case_decide as Hd; [|done].
  destruct Hd as [-> _]. congruence.
Qed.

Lemma mutate_twice st r f :
  (∀ t, f (f t) = f t) → mutate (mutate st r f) r f = mutate st r f.
Proof.
  intros Hf. unfold mutate; simpl. f_equal.
  rewrite list_alter_alter_eq. apply list_alter_ext; [|done].
  intros t _. apply Hf.
Qed.

Lemma untouched_mutate st tid i r f :
  (∀ t, id (f t) = id t) → scan st tid = Some (i, r) →
  filter (λ t, id t ≠ tid) (tasks (mutate st r f))
  = filter (λ t, id t ≠ tid) (tasks st).
Proof.
  intros Hf (_ & Hr & _)%list_find_Some.
  unfold tasks, contents, list_current_tasks; simpl. by apply filter_alter.
Qed.

Lemma untouched_exec st c tid :
  target c = Some tid →
  filter (λ t, id t ≠ tid) (tasks (exec c st).2)
  = filter (λ t, id t ≠ tid) (tasks st).
Proof.
  destruct c as [u d p e cat pp|t|t b|t p|t m|t cat pp]; intros [= ->]; simpl.
  - rewrite tasks_remove. apply list_filter_filter_l. done.
  - unfold update_task_status.
    destruct (scan st tid) as [[i r]|] eqn:Hs; [|done].
    by eapply untouched_mutate.
  - unfold update_task_priority. case_decide; [done|].
    destruct (scan st tid) as [[i r]|] eqn:Hs; [|done].
    by eapply untouched_mutate.
  - unfold update_task_estimated_duration. case_decide; [done|].
    destruct (scan st tid) as [[i r]|] eqn:Hs; [|done].
    by eapply untouched_mutate.
  - unfold update_task_metadata.
    destruct (scan st tid) as [[i r]|] eqn:Hs; [|done].
    destruct cat as [cat|], pp as [pp|]; simpl; [| | |done].
    + rewrite (untouched_mutate _ tid i r) by (by rewrite ?scan_mutate).
      by eapply untouched_mutate.
    + by eapply untouched_mutate.
    + by eapply untouched_mutate.
Qed.



(** C5.  [update_task_priority] with a priority outside 1..5 returns the
    range message and leaves the store as it is, whatever the task id;
    with a priority in 1..5 and the id of a task of a reachable store it
    returns the confirmation, the task at that position gets the new
    priority and nothing else changes: no object is created and the list
    bound to [_todos] is the same object with the same elements. *)
Theorem update_task_priority_range st task_id p :
  (p < 1 ∨ p > 5 →
     update_task_priority st task_id p
     = ("Priority must be between 1 and 5", st))
  ∧ (1 ≤ p ≤ 5 → reachable st →
     ∀ i t, tasks st !! i = Some t → id t = task_id →
     ∃ st', update_task_priority st task_id p
            = ("Task with ID: " +:+ task_id +:+
                 " has been updated to priority " +:+ pretty p, st')
          ∧ tasks st' = <[i := set_priority p t]> (tasks st)
          ∧ list_objects st' = list_objects st
          ∧ _todos st' = _todos st
          ∧ length (objects st') = length (objects st)).
Proof.
  split.
  - intros Hp. unfold update_task_priority. by rewrite decide_True.
  - intros Hp Hr%reachable_wf i t Hi Hid.
    destruct (scan_located _ _ _ _ Hr Hi Hid) as [r Hs].
    unfold update_task_priority. rewrite decide_False by lia. rewrite Hs.
    eexists; split_and!; [done| |done|done|apply length_alter].
    rewrite (tasks_mutate _ _ _ _ _ Hr Hs).
    rewrite list_insert_alter. apply list_alter_ext; [|done].
    intros t' Ht'. congruence.
Qed.

(** C6.  In a reachable store, [remove_task_from_list] with an identifier
    no task carries reports that no task was found and the tasks are the
    same; with the identifier of a task it reports the removal, there is
    exactly one task fewer and no remaining task carries the identifier. *)
Theorem remove_task_from_list_spec st task_id :
  reachable st →
  (task_id ∉ id <$> tasks st →
     (remove_task_from_list st task_id).1
     = "No task found with ID: " +:+ task_id
     ∧ tasks (remove_task_from_list st task_id).2 = tasks st)
  ∧ (task_id ∈ id <$> tasks st →
     (remove_task_from_list st task_id).1
     = "Task with ID: " +:+ task_id +:+ " has been removed"
     ∧ (length (tasks (remove_task_from_list st task_id).2) + 1
        = length (tasks st))%nat
     ∧ task_id ∉ id <$> tasks (remove_task_from_list st task_id).2).
Proof.
  intros Hr%reachable_wf. rewrite remove_message, tasks_remove. split.
  - intros Habs. rewrite filter_absent by done. by rewrite decide_True.
  - intros Hin. pose proof (filter_present _ _ (tasks_ids_NoDup _ Hr) Hin).
    split_and!; [rewrite decide_False by lia; done|done|].
    intros (t & -> & [Ht _]%list_elem_of_filter)%list_elem_of_fmap. done.
Qed.

(** C8.  Applying a mutating operation a second time with the same
    arguments changes nothing: the four update tools leave the whole store
    as the first application left it, and after [remove_task_from_list]
    the task list is the one the first application left.  Each of the five
    addresses its target by string equality on the identifier: a task
    whose identifier differs from the argument is never affected. *)
Theorem mutating_operations_idempotent st task_id is_done p m cat pp :
  (update_task_status (update_task_status st task_id is_done).2
                      task_id is_done).2
    = (update_task_status st task_id is_done).2
  ∧ (update_task_priority (update_task_priority st task_id p).2 task_id p).2
    = (update_task_priority st task_id p).2
  ∧ (update_task_estimated_duration
       (update_task_estimated_duration st task_id m).2 task_id m).2
    = (update_task_estimated_duration st task_id m).2
  ∧ (update_task_metadata (update_task_metadata st task_id cat pp).2
                          task_id cat pp).2
    = (update_task_metadata st task_id cat pp).2
  ∧ tasks (remove_task_from_list (remove_task_from_list st task_id).2
                                 task_id).2
    = tasks (remove_task_from_list st task_id).2
  ∧ (∀ c, target c = Some task_id →
       filter (λ t, id t ≠ task_id) (tasks (exec c st).2)
       = filter (λ t, id t ≠ task_id) (tasks st)).
Proof.
  split_and!.
  - unfold update_task_status.
    destruct (scan st task_id) as [[i r]|] eqn:Hs; simpl; [|by rewrite Hs].
    rewrite scan_mutate, Hs by done. simpl. by apply mutate_twice.
  - unfold update_task_priority. case_decide; [done|].
    destruct (scan st task_id) as [[i r]|] eqn:Hs; simpl; [|by rewrite Hs].
    rewrite scan_mutate, Hs by done. simpl. by apply mutate_twice.
  - unfold update_task_estimated_duration. case_decide; [done|].
    destruct (scan st task_id) as [[i r]|] eqn:Hs; simpl; [|by rewrite Hs].
    rewrite scan_mutate, Hs by done. simpl. by apply mutate_twice.
  - unfold update_task_metadata.
    destruct (scan st task_id) as [[i r]|] eqn:Hs; [|simpl; by rewrite Hs].
    destruct cat as [c|], pp as [q|]; simpl;
      rewrite ?scan_mutate, Hs by done; simpl; [|by apply mutate_twice..|done].
    unfold mutate; simpl. f_equal. rewrite !list_alter_alter_eq.
    apply list_alter_ext; [|done]. by intros [] _.
  - rewrite !tasks_remove. apply list_filter_filter_l. done.
  - intros c Hc. by apply untouched_exec.
Qed.

(** A store with the one task "u1". *)
Lemma reachable_one_task :
  reachable (add_task_to_list initial "u1" "buy milk" 3 None None None).2.
Proof.
  apply (reachable_exec initial (AddTask "u1" "buy milk" 3 None None None)).
  - apply reachable_initial.
  - apply not_elem_of_nil.
Defined.

Lemma update_task_priority_range_witness :
  let st := (add_task_to_list initial "u1" "buy milk" 3 None None None).2 in
  update_task_priority st "u1" 0 = ("Priority must be between 1 and 5", st)
  ∧ update_task_priority st "u1" 6 = ("Priority must be between 1 and 5", st)
  ∧ (∃ st', update_task_priority st "u1" 1
            = ("Task with ID: u1 has been updated to priority 1", st')
          ∧ priority <$> tasks st' = [1])
  ∧ (∃ st', update_task_priority st "u1" 5
            = ("Task with ID: u1 has been updated to priority 5", st')
          ∧ priority <$> tasks st' = [5]).
Proof.
  intros st. split_and!.
  - apply (update_task_priority_range st "u1" 0). lia.
  - apply (update_task_priority_range st "u1" 6). lia.
  - destruct (proj2 (update_task_priority_range st "u1" 1) ltac:(lia)
                reachable_one_task 0%nat _ eq_refl eq_refl)
      as (st' & Hst' & Htasks & _).
    exists st'. split; [exact Hst'|]. rewrite Htasks. reflexivity.
  - destruct (proj2 (update_task_priority_range st "u1" 5) ltac:(lia)
                reachable_one_task 0%nat _ eq_refl eq_refl)
      as (st' & Hst' & Htasks & _).
    exists st'. split; [exact Hst'|]. rewrite Htasks. reflexivity.
Defined.

Lemma remove_task_from_list_spec_witness :
  let st := (add_task_to_list initial "u1" "buy milk" 3 None None None).2 in
  ((remove_task_from_list st "u2").1 = "No task found with ID: u2"
   ∧ tasks (remove_task_from_list st "u2").2 = tasks st)
  ∧ ((remove_task_from_list st "u1").1 = "Task with ID: u1 has been removed"
     ∧ (length (tasks (remove_task_from_list st "u1").2) + 1
        = length (tasks st))%nat
     ∧ "u1" ∉ id <$> tasks (remove_task_from_list st "u1").2).
Proof.
  intros st. split.
  - apply (remove_task_from_list_spec st "u2" reachable_one_task).
    vm_compute. intros [?|?%elem_of_nil]%elem_of_cons; done.
  - apply (remove_task_from_list_spec st "u1" reachable_one_task).
    vm_compute. apply list_elem_of_here.
Defined.

Lemma mutating_operations_idempotent_witness :
  let st := (add_task_to_list
               (add_task_to_list initial "u1" "buy milk" 3 None None None).2
               "u2" "call home" 2 None None None).2 in
  let st1 := (update_task_status st "u1" true).2 in
  is_done <$> tasks st1 = [true; false]
  ∧ (update_task_status st1 "u1" true).2 = st1
  ∧ filter (λ t, id t ≠ "u1") (tasks (remove_task_from_list st "u1").2)
    = filter (λ t, id t ≠ "u1") (tasks st).
Proof.
  intros st st1.
  destruct (mutating_operations_idempotent st "u1" true 1 1 None None)
    as (Hstatus & _ & _ & _ & _ & Hmatch).
  split_and!.
  - vm_compute; reflexivity.
  - exact Hstatus.
  - apply (Hmatch (RemoveTask "u1")). reflexivity.
Defined.

End todo_facts.

(** ** Facts about the calendar store *)

Module calendar_facts.
Import calendar_tools.

Implicit Types (events : list CalendarEvent) (e : CalendarEvent).
Implicit Types (event_id : string) (d : datetime) (m : Z).

(** When the sum [d + timedelta(minutes=m)] is computed. *)
Lemma add_minutes_Some d m (e : datetime) :
  timedelta_minutes m ≫= datetime_add d = Some e
  ↔ timedelta_in_range (m * us_per_minute)
    ∧ datetime_in_range (d + m * us_per_minute)
    ∧ e = d + m * us_per_minute.
Proof.
  unfold timedelta_minutes, datetime_add.
  case_decide; simpl; [case_decide|]; split; intros; destruct_and?;
    simplify_eq; try split_and?; done || tauto.
Qed.

Lemma add_minutes_None d m :
  timedelta_minutes m ≫= datetime_add d = None
  ↔ ¬ (timedelta_in_range (m * us_per_minute)
       ∧ datetime_in_range (d + m * us_per_minute)).
Proof.
  unfold timedelta_minutes, datetime_add.
  case_decide; simpl; [case_decide|]; split; intros; destruct_and?;
    simplify_eq; try split_and?; done || tauto.
Qed.

Lemma datetime_add_Some d (td : timedelta) (e : datetime) :
  datetime_add d td = Some e ↔ datetime_in_range (d + td) ∧ e = d + td.
Proof.
  unfold datetime_add. case_decide; split; intros; destruct_and?;
    simplify_eq; try split_and?; done || tauto.
Qed.




(** Where identifiers are unique, every event is the first with its
    identifier. *)
Lemma unique_first events i e :
  NoDup (id <$> events) → events !! i = Some e →
  ∀ j e', events !! j = Some e' → (j < i)%nat → id e' ≠ id e.
Proof.
  intros Hnd Hi j e' Hj Hlt Heq.
  assert (j = i); [|lia].
  apply (NoDup_lookup _ _ _ (id e) Hnd).
  - by rewrite list_lookup_fmap, Hj, <- Heq.
  - by rewrite list_lookup_fmap, Hi.
Qed.

(** The loop of [list_calendar_events] is a filter. *)
Lemma collect_filter (P : CalendarEvent → Prop) `{!∀ e, Decision (P e)}
    (events acc : list CalendarEvent) :
  foldl (λ filtered_events event,
           if decide (P event) then filtered_events ++ [event]
           else filtered_events) acc events
  = acc ++ filter P events.
Proof.
  revert acc. induction events as [|e events IH]; intros acc; simpl.
  - by rewrite app_nil_r.
  - rewrite IH, filter_cons. case_decide; [|done].
    by rewrite <- app_assoc.
Qed.

Lemma list_calendar_events_filter events date d :
  fromisoformat date = Some d →
  list_calendar_events events (Some date)
  = filter (λ e, datetime_date (start_time e) = datetime_date d) events.
Proof.
  intros Hd. unfold list_calendar_events. rewrite Hd.
  by rewrite (collect_filter
                (λ e, datetime_date (start_time e) = datetime_date d)).
Qed.



(** A call that returns leaves the event it finds as long as it was or
    gives it a positive number of minutes. *)
Lemma span_shift e changes (s : option string) :
  match shift_start e changes s with
  | inl (Return _, e') | inr (e', _) =>
      end_time e' - start_time e' = end_time e - start_time e
  | inl (Raise _, _) => True
  end.
Proof.
  unfold shift_start, timedelta_of_total_minutes, datetime_sub.
  destruct s as [s|]; [|done].
  destruct (fromisoformat s) as [ns|]; [|done].
  destruct (datetime_add ns _) as [ne|] eqn:Hne; [|done].
  apply datetime_add_Some in Hne as [_ ->]. simpl. lia.
Qed.

Lemma span_override e changes duration_minutes :
  match override_duration e changes duration_minutes with
  | inl (Return _, e') =>
      end_time e' - start_time e' = end_time e - start_time e
  | inr (e', _) =>
      end_time e' - start_time e' = end_time e - start_time e
      ∨ ∃ m, 0 < m ∧ end_time e' - start_time e' = m * us_per_minute
  | inl (Raise _, _) => True
  end.
Proof.
  unfold override_duration.
  destruct duration_minutes as [m|]; [|by left].
  case_decide; [done|].
  destruct (timedelta_minutes m ≫= _) as [ne|] eqn:Hne; [|done].
  apply add_minutes_Some in Hne as (_ & _ & ->).
  right. exists m. simpl. split; lia.
Qed.

Lemma span_update_event e event_id start_time duration_minutes text e' :
  update_event e event_id start_time duration_minutes = (Return text, e') →
  end_time e' - calendar_tools.start_time e'
    = end_time e - calendar_tools.start_time e
  ∨ ∃ m, 0 < m
         ∧ end_time e' - calendar_tools.start_time e' = m * us_per_minute.
Proof.
  unfold update_event. intros Hup.
  pose proof (span_shift e [] start_time) as Hs.
  destruct (shift_start e [] start_time) as [[out e1]|[e1 changes]].
  { simplify_eq. by left. }
  pose proof (span_override e1 changes duration_minutes) as Ho.
  destruct (override_duration e1 changes duration_minutes)
    as [[out e2]|[e2 changes2]].
  - simplify_eq. left. congruence.
  - assert (e' = e2) as -> by (destruct changes2; by simplify_eq).
    destruct Ho as [Ho|Ho]; [left; congruence|by right].
Qed.

Lemma span_update (P : Z → Prop) events event_id start_time duration_minutes
    text events' :
  (∀ m, 0 < m → P (m * us_per_minute)) →
  update_calendar_event_time events event_id start_time duration_minutes
  = (Return text, events') →
  Forall (λ e, P (end_time e - calendar_tools.start_time e)) events →
  Forall (λ e, P (end_time e - calendar_tools.start_time e)) events'.
Proof.
  intros HP. revert events'.
  induction events as [|e events IH]; intros events' Hup Hw.
  - by simplify_eq/=.
  - apply Forall_cons in Hw as [He Hw]. simpl in Hup. case_decide.
    + destruct (update_event _ _ _ _) as [out e1] eqn:Hev. simplify_eq.
      apply Forall_cons. split; [|done].
      destruct (span_update_event _ _ _ _ _ _ Hev) as [->|(m & Hm & ->)];
        auto.
    + destruct (update_calendar_event_time events _ _ _) as [out rest] eqn:Hr.
      simplify_eq. apply Forall_cons. split; [done|]. by apply IH.
Qed.

(** Events built by [create_calendar_event] last whole minutes, and a
    call of [update_calendar_event_time] that returns keeps it so. *)
Lemma whole_minutes_create events event_id title s m description location
    text events' :
  create_calendar_event events event_id title s m description location
  = (Return text, events') →
  Forall whole_minutes events → Forall whole_minutes events'.
Proof.
  unfold create_calendar_event. intros Hc Hw.
  destruct (fromisoformat s) as [start|]; [|by simplify_eq].
  destruct (timedelta_minutes m ≫= _) as [ne|] eqn:Hne; simplify_eq/=.
  apply add_minutes_Some in Hne as (_ & _ & ->).
  apply Forall_app. split; [done|]. apply Forall_singleton.
  unfold whole_minutes; simpl.
  replace (start + m * us_per_minute - start) with (m * us_per_minute) by lia.
  apply Z_mod_mult.
Qed.

Lemma whole_minutes_update events event_id start_time duration_minutes
    text events' :
  update_calendar_event_time events event_id start_time duration_minutes
  = (Return text, events') →
  Forall whole_minutes events → Forall whole_minutes events'.
Proof.
  apply (span_update (λ d, d `mod` us_per_minute = 0)).
  intros m _. apply Z_mod_mult.
Qed.

(** An event created with a duration of zero or more does not end before
    it starts, and a call of [update_calendar_event_time] that returns
    keeps it so. *)
Lemma ordered_create events event_id title s m description location
    text events' :
  0 ≤ m →
  create_calendar_event events event_id title s m description location
  = (Return text, events') →
  Forall ordered events → Forall ordered events'.
Proof.
  unfold create_calendar_event. intros Hm Hc Hw.
  destruct (fromisoformat s) as [start|]; [|by simplify_eq].
  destruct (timedelta_minutes m ≫= _) as [ne|] eqn:Hne; simplify_eq/=.
  apply add_minutes_Some in Hne as (_ & _ & ->).
  apply Forall_app. split; [done|]. apply Forall_singleton.
  unfold ordered, us_per_minute, us_per_second; simpl. lia.
Qed.

Lemma ordered_update events event_id start_time duration_minutes
    text events' :
  update_calendar_event_time events event_id start_time duration_minutes
  = (Return text, events') →
  Forall ordered events → Forall ordered events'.
Proof.
  intros Hup Hw.
  eapply Forall_impl;
    [eapply (span_update (λ d, 0 ≤ d)); [|exact Hup|]|].
  - intros m Hm. unfold us_per_minute, us_per_second. lia.
  - eapply Forall_impl; [exact Hw|]. unfold ordered. intros e He; simpl; lia.
  - unfold ordered. intros e He; simpl in *; lia.
Qed.

(** C2.  [create_calendar_event] takes a negative duration as it comes:
    the event it stores ends thirty minutes before it starts. *)
Theorem create_calendar_event_negative_duration :
  ∃ e, create_calendar_event [] "e1" "Review" "2024-01-01T09:00:00" (-30)
                             None None
       = (Return "Calendar event created with ID: e1", [e])
     ∧ Some (start_time e) = fromisoformat "2024-01-01T09:00:00"
     ∧ Some (end_time e) = fromisoformat "2024-01-01T08:30:00"
     ∧ end_time e < start_time e.
Proof. eexists. split_and!; [vm_compute; reflexivity..|done]. Qed.

(** Outside the range of [datetime], [create_calendar_event] stores
    nothing and the [OverflowError] leaves the function. *)
Lemma create_calendar_event_overflow events event_id title s m
    description location (start : datetime) :
  fromisoformat s = Some start →
  ¬ (timedelta_in_range (m * us_per_minute)
     ∧ datetime_in_range (start + m * us_per_minute)) →
  create_calendar_event events event_id title s m description location
  = (Raise OverflowError, events).
Proof.
  intros Hs Hr. unfold create_calendar_event. rewrite Hs.
  by rewrite (proj2 (add_minutes_None _ _) Hr).
Qed.

(** C4, as the code has it.  For a start text that parses and a duration
    for which start plus duration is still a [datetime] (and the duration
    a [timedelta]), [create_calendar_event] appends one event whose end
    is the parsed start plus the duration in minutes. *)
Theorem create_calendar_event_end_time events event_id title s m
    description location (start : datetime) :
  fromisoformat s = Some start →
  timedelta_in_range (m * us_per_minute) →
  datetime_in_range (start + m * us_per_minute) →
  create_calendar_event events event_id title s m description location
  = (Return ("Calendar event created with ID: " +:+ event_id),
     events ++ [mkCalendarEvent event_id title start
                  (start + m * us_per_minute) description location]).
Proof.
  intros Hs Ht Hd. unfold create_calendar_event. rewrite Hs.
  by rewrite (proj2 (add_minutes_Some _ _ _) (conj Ht (conj Hd eq_refl))).
Qed.

(** The start 2024-01-01T09:00:00 with 30 minutes ends 09:30:00. *)
Lemma create_calendar_event_end_time_witness :
  ∃ start e,
    fromisoformat "2024-01-01T09:00:00" = Some start
    ∧ create_calendar_event [] "e1" "Standup" "2024-01-01T09:00:00" 30
                            None None
      = (Return "Calendar event created with ID: e1", [e])
    ∧ start_time e = start
    ∧ Some (end_time e) = fromisoformat "2024-01-01T09:30:00".
Proof.
  eexists _, _. split_and!.
  - vm_compute; reflexivity.
  - apply (create_calendar_event_end_time [] "e1" "Standup"
             "2024-01-01T09:00:00" 30 None None 63839696400000000).
    + vm_compute; reflexivity.
    + vm_compute. split; discriminate.
    + vm_compute. split; [discriminate|reflexivity].
  - reflexivity.
  - vm_compute; reflexivity.
Defined.

(** C4 as stated fails at the end of the calendar: one minute after
    9999-12-31T23:59:59 is no [datetime], no event is stored. *)
Lemma create_calendar_event_end_time_counterexample :
  is_Some (fromisoformat "9999-12-31T23:59:59")
  ∧ create_calendar_event [] "e1" "Countdown" "9999-12-31T23:59:59" 1
                          None None
    = (Raise OverflowError, []).
Proof. split; [vm_compute; eauto|vm_compute; reflexivity]. Qed.









End calendar_facts.

(** ** The gateway and the tool layer *)

Module main_facts.
Import todo_tools.



(** [remove_task_from_list] binds it to a list object that did not exist
    before, found or not. *)
Lemma remove_rebinds st t :
  wf st → _todos (remove_task_from_list st t).2 ≠ _todos st.
Proof.
  intros [_ _ Ht]. unfold remove_task_from_list.
  case_decide; simpl; lia.
Qed.


(** A task added after any removal never shows at the gateway. *)
Lemma get_todos_misses_later_task :
  let p := main.run [RemoveTask "none";
                     AddTask "u1" "buy milk" 3 None None None]
                    main.startup in
  main.get_todos p = []
  ∧ main.list_current_tasks p
    = [main.mkTaskItem "u1" "buy milk" false 3 None None None].
Proof. vm_compute. split; reflexivity. Qed.

End main_facts.

(** ** Failures of the tools are results *)

Module tool_layer_facts.
Import todo_tools.




End tool_layer_facts.

(** ** More on the task tools *)

Module todo_more.
Import todo_tools.

Lemma tasks_add st u d p e c pp :
  wf st →
  tasks (add_task_to_list st u d p e c pp).2
  = tasks st ++ [mkTodoItem u d false p e c pp].
Proof.
  intros Hwf. destruct (wf_lists _ Hwf _ (todo_facts.todos_bound _ Hwf))
    as [_ Hlt].
  unfold tasks, contents, list_current_tasks; simpl.
  rewrite list_lookup_total_alter_eq by apply Hwf.
  rewrite fmap_app; simpl. f_equal.
  - apply list_fmap_ext. intros k r Hr.
    apply lookup_total_app_l, Hlt. by eapply list_elem_of_lookup_2.
  - f_equal. by apply list_lookup_total_middle.
Qed.

(** [add_task_to_list] puts one task at the end of the list: it carries
    the drawn identifier and the arguments as given, whatever the
    priority, and is not done; the tasks before it are as they were. *)
Theorem add_task_to_list_appends st task_id description priority
    estimated_duration_minutes category project_or_path :
  reachable st →
  add_task_to_list st task_id description priority
                   estimated_duration_minutes category project_or_path
  = ("Task added with ID: " +:+ task_id,
     (add_task_to_list st task_id description priority
                       estimated_duration_minutes category project_or_path).2)
  ∧ tasks (add_task_to_list st task_id description priority
             estimated_duration_minutes category project_or_path).2
    = tasks st ++ [mkTodoItem task_id description false priority
                     estimated_duration_minutes category project_or_path].
Proof.
  intros Hr%todo_facts.reachable_wf. split; [done|by apply tasks_add].
Qed.

Lemma add_task_to_list_appends_witness :
  let st := (add_task_to_list initial "u1" "buy milk" 3 None None None).2 in
  tasks (add_task_to_list st "u2" "file taxes" 9 (Some 45) (Some "home")
                          None).2
  = [mkTodoItem "u1" "buy milk" false 3 None None None;
     mkTodoItem "u2" "file taxes" false 9 (Some 45) (Some "home") None].
Proof.
  intros st.
  destruct (add_task_to_list_appends st "u2" "file taxes" 9 (Some 45)
              (Some "home") None todo_facts.reachable_one_task) as [_ Ht].
  rewrite Ht. reflexivity.
Defined.

(** No two tasks of a reachable store carry the same identifier. *)
Theorem task_ids_unique st : reachable st → NoDup (id <$> tasks st).
Proof. intros Hr%todo_facts.reachable_wf. by apply todo_facts.tasks_ids_NoDup. Qed.

Lemma task_ids_unique_witness :
  NoDup (id <$> tasks
           (add_task_to_list
              (add_task_to_list initial "u1" "buy milk" 3 None None None).2
              "u2" "call home" 2 None None None).2).
Proof.
  apply task_ids_unique.
  apply (reachable_exec _ (AddTask "u2" "call home" 2 None None None)).
  - apply todo_facts.reachable_one_task.
  - vm_compute. intros [?|?%elem_of_nil]%elem_of_cons; done.
Defined.

(** What a field update does to the task list of a well-formed store. *)
Lemma tasks_update st i t tid f :
  wf st → tasks st !! i = Some t → id t = tid →
  ∃ r, scan st tid = Some (i, r)
       ∧ tasks (mutate st r f) = <[i := f t]> (tasks st).
Proof.
  intros Hwf Hi Hid.
  destruct (todo_facts.scan_located _ _ _ _ Hwf Hi Hid) as [r Hs].
  exists r. split; [done|].
  rewrite (todo_facts.tasks_mutate _ _ _ _ _ Hwf Hs).
  rewrite list_insert_alter. apply list_alter_ext; [|done].
  intros t' Ht'. congruence.
Qed.

(** [update_task_status] on the identifier of a task sets that task's
    flag to the argument, to [False] as well as to [True], reports which,
    and leaves every other field and task alone. *)
Theorem update_task_status_spec st task_id is_done i t :
  reachable st → tasks st !! i = Some t → id t = task_id →
  (update_task_status st task_id is_done).1
  = "Task with ID: " +:+ task_id +:+ " has been "
      +:+ (if is_done then "completed" else "marked as not complete")
  ∧ tasks (update_task_status st task_id is_done).2
    = <[i := set_is_done is_done t]> (tasks st).
Proof.
  intros Hr%todo_facts.reachable_wf Hi Hid.
  destruct (tasks_update _ _ _ _ (set_is_done is_done) Hr Hi Hid)
    as (r & Hs & Ht).
  unfold update_task_status. rewrite Hs. done.
Qed.

Lemma update_task_status_spec_witness :
  let st := (add_task_to_list initial "u1" "buy milk" 3 None None None).2 in
  (update_task_status st "u1" true).1 = "Task with ID: u1 has been completed"
  ∧ tasks (update_task_status st "u1" true).2
    = [mkTodoItem "u1" "buy milk" true 3 None None None].
Proof.
  intros st.
  destruct (update_task_status_spec st "u1" true 0%nat _
              todo_facts.reachable_one_task eq_refl eq_refl) as [Hm Ht].
  split; [exact Hm|]. rewrite Ht. reflexivity.
Defined.

(** [update_task_estimated_duration] with a positive number of minutes on
    the identifier of a task sets that task's estimate and nothing
    else. *)
Theorem update_task_estimated_duration_spec st task_id m i t :
  reachable st → tasks st !! i = Some t → id t = task_id → 0 < m →
  (update_task_estimated_duration st task_id m).1
  = "Task with ID: " +:+ task_id +:+
      " has been updated with estimated duration of " +:+ pretty m
      +:+ " minutes"
  ∧ tasks (update_task_estimated_duration st task_id m).2
    = <[i := set_estimated_duration_minutes m t]> (tasks st).
Proof.
  intros Hr%todo_facts.reachable_wf Hi Hid Hm.
  destruct (tasks_update _ _ _ _ (set_estimated_duration_minutes m) Hr Hi Hid)
    as (r & Hs & Ht).
  unfold update_task_estimated_duration.
  rewrite decide_False by lia. rewrite Hs. done.
Qed.

Lemma update_task_estimated_duration_spec_witness :
  let st := (add_task_to_list initial "u1" "buy milk" 3 None None None).2 in
  (update_task_estimated_duration st "u1" 25).1
  = "Task with ID: u1 has been updated with estimated duration of 25 minutes"
  ∧ tasks (update_task_estimated_duration st "u1" 25).2
    = [mkTodoItem "u1" "buy milk" false 3 (Some 25) None None].
Proof.
  intros st.
  destruct (update_task_estimated_duration_spec st "u1" 25 0%nat _
              todo_facts.reachable_one_task eq_refl eq_refl ltac:(lia))
    as [Hm Ht].
  split; [exact Hm|]. rewrite Ht. reflexivity.
Defined.

(** [update_task_metadata] on the identifier of a task overwrites the
    category and the project exactly where an argument is given; an
    argument left out keeps the old value, it does not clear it. *)
Theorem update_task_metadata_spec st task_id category project_or_path i t :
  reachable st → tasks st !! i = Some t → id t = task_id →
  tasks (update_task_metadata st task_id category project_or_path).2
  = <[i := mkTodoItem (id t) (description t) (is_done t) (priority t)
             (estimated_duration_minutes t)
             (match category with
              | Some c => Some c
              | None => todo_tools.category t
              end)
             (match project_or_path with
              | Some p => Some p
              | None => todo_tools.project_or_path t
              end)]> (tasks st).
Proof.
  intros Hr%todo_facts.reachable_wf Hi Hid.
  destruct (todo_facts.scan_located _ _ _ _ Hr Hi Hid) as [r Hs].
  unfold update_task_metadata. rewrite Hs.
  destruct category as [c|], project_or_path as [p|]; simpl.
  - destruct (tasks_update _ _ _ _ (set_category c) Hr Hi Hid)
      as (r' & Hs' & Ht). simplify_eq.
    assert (Hwf' : wf (mutate st r (set_category c)))
      by (by apply todo_facts.wf_mutate).
    assert (Hi' : tasks (mutate st r (set_category c)) !! i
                  = Some (set_category c t)).
    { rewrite Ht. apply list_lookup_insert_eq. by eapply lookup_lt_Some. }
    destruct (tasks_update _ _ _ (id t) (set_project_or_path p) Hwf' Hi' eq_refl)
      as (r' & Hs' & Ht').
    rewrite todo_facts.scan_mutate in Hs' by done. simplify_eq.
    rewrite Ht', Ht. by rewrite list_insert_insert_eq.
  - destruct (tasks_update _ _ _ _ (set_category c) Hr Hi Hid)
      as (r' & Hs' & Ht). by simplify_eq.
  - destruct (tasks_update _ _ _ _ (set_project_or_path p) Hr Hi Hid)
      as (r' & Hs' & Ht). by simplify_eq.
  - symmetry. apply list_insert_id. rewrite Hi. by destruct t.
Qed.

Lemma update_task_metadata_spec_witness :
  let st := (add_task_to_list initial "u1" "buy milk" 3 None (Some "home")
                              (Some "errands")).2 in
  tasks (update_task_metadata st "u1" None (Some "weekend")).2
  = [mkTodoItem "u1" "buy milk" false 3 None (Some "home") (Some "weekend")].
Proof.
  intros st.
  assert (Hr : reachable st).
  { apply (reachable_exec initial
             (AddTask "u1" "buy milk" 3 None (Some "home") (Some "errands")));
      [apply reachable_initial|apply not_elem_of_nil]. }
  rewrite (update_task_metadata_spec st "u1" None (Some "weekend") 0%nat _
             Hr eq_refl eq_refl).
  reflexivity.
Defined.

End todo_more.

(** ** More on the gateway's view of the tasks *)

Module gateway_more.
Import todo_tools main_invariant.


















End gateway_more.

(** ** What the task tools never touch *)

Module todo_order.
Import todo_tools.

Lemma contents_mutate_proj {A} (g : TodoItem → A) st r f l :
  (∀ t, g (f t) = g t) →
  g <$> contents (mutate st r f) l = g <$> contents st l.
Proof.
  intros Hf. unfold contents; simpl. rewrite <- !list_fmap_compose.
  apply list_fmap_ext. intros k r' _. simpl.
  rewrite list_lookup_total_alter. case_decide as Hd; [|done].
  destruct Hd as [-> _]. apply Hf.
Qed.

(** The update tools never add, drop or reorder tasks, and never change
    the identifier or the description of one, found or not. *)
Theorem updates_keep_identity st c :
  (∀ u d p e cat pp, c ≠ AddTask u d p e cat pp) →
  (∀ t, c ≠ RemoveTask t) →
  (λ t, (id t, description t)) <$> tasks (exec c st).2
  = (λ t, (id t, description t)) <$> tasks st.
Proof.
  intros Hadd Hrem.
  destruct c as [u d q e cat pp|t|t b|t q|t m|t cat pp]; cbn [exec];
    [by destruct (Hadd u d q e cat pp)|by destruct (Hrem t)|..].
  - unfold update_task_status. destruct (scan st t) as [[i r]|]; [|done].
    by apply contents_mutate_proj.
  - unfold update_task_priority. case_decide; [done|].
    destruct (scan st t) as [[i r]|]; [|done].
    by apply contents_mutate_proj.
  - unfold update_task_estimated_duration. case_decide; [done|].
    destruct (scan st t) as [[i r]|]; [|done].
    by apply contents_mutate_proj.
  - unfold update_task_metadata. destruct (scan st t) as [[i r]|]; [|done].
    destruct cat as [c|], pp as [p|]; simpl; [| | |done].
    + unfold tasks, list_current_tasks; simpl.
      rewrite (contents_mutate_proj _ (mutate st r (set_category c))) by done.
      by apply contents_mutate_proj.
    + by apply contents_mutate_proj.
    + by apply contents_mutate_proj.
Qed.

Lemma updates_keep_identity_witness :
  let st := (add_task_to_list
               (add_task_to_list initial "u1" "buy milk" 3 None None None).2
               "u2" "call home" 2 None None None).2 in
  (λ t, (id t, description t))
    <$> tasks (exec (UpdateMetadata "u2" (Some "family") None)
                 (exec (UpdatePriority "u1" 1) st).2).2
  = [("u1", "buy milk"); ("u2", "call home")].
Proof.
  intros st.
  rewrite (updates_keep_identity _ (UpdateMetadata "u2" (Some "family") None))
    by (intros; discriminate).
  rewrite (updates_keep_identity _ (UpdatePriority "u1" 1))
    by (intros; discriminate).
  reflexivity.
Defined.

(** [remove_task_from_list] drops every task that carries the identifier
    and keeps the others as they are, in their order, in any store. *)
Theorem remove_task_from_list_keeps_order st task_id :
  tasks (remove_task_from_list st task_id).2
  = filter (λ t, id t ≠ task_id) (tasks st).
Proof.
  unfold remove_task_from_list, tasks, contents, list_current_tasks.
  case_decide; simpl.
  all: rewrite list_lookup_total_middle by done.
  all: apply todo_facts.deref_filter.
Qed.

End todo_order.

(** ** More on the calendar tools *)

Module calendar_more.
Import calendar_tools.

Implicit Types (events : list CalendarEvent) (e : CalendarEvent).
Implicit Types (event_id : string).

Lemma filter_other events event_id :
  event_id ∉ id <$> events → filter (λ e, id e ≠ event_id) events = events.
Proof.
  induction events as [|e events IH]; [done|].
  rewrite fmap_cons, not_elem_of_cons. intros [Hne Hrest].
  rewrite filter_cons_True by done. by rewrite IH.
Qed.

(** [delete_calendar_event] keeps exactly the events with another
    identifier, in their order; it reports a deletion when the identifier
    was there and that nothing was found when it was not; afterwards no
    event carries the identifier. *)
Theorem delete_calendar_event_spec events event_id :
  (delete_calendar_event events event_id).2
  = filter (λ e, id e ≠ event_id) events
  ∧ (event_id ∉ id <$> (delete_calendar_event events event_id).2)
  ∧ (delete_calendar_event events event_id).1
    = Return (if decide (event_id ∈ id <$> events)
              then ("Event with ID: " +:+ event_id +:+ " has been deleted")
              else ("No event found with ID: " +:+ event_id)).
Proof.
  assert (Hst : (delete_calendar_event events event_id).2
                = filter (λ e, id e ≠ event_id) events).
  { unfold delete_calendar_event. by case_decide. }
  rewrite Hst. split_and!; [done| |].
  - intros (e & -> & [He _]%list_elem_of_filter)%list_elem_of_fmap. done.
  - unfold delete_calendar_event. case_decide as Hlen; simpl.
    + rewrite decide_False; [done|].
      intros (e & -> & He)%list_elem_of_fmap.
      assert (length (filter (λ e', id e' ≠ id e) events) < length events)%nat
        by (apply (length_filter_lt _ _ e He); intros Hne; by apply Hne).
      cbv zeta in Hlen. lia.
    + rewrite decide_True; [done|].
      destruct (decide (event_id ∈ id <$> events)) as [|Habs]; [done|].
      rewrite filter_other in Hlen by done. done.
Qed.

(** Deleting an event that was just created gives back the store as it
    was, provided the identifier is new. *)
Theorem create_then_delete events event_id title s m description location
    text events' :
  event_id ∉ id <$> events →
  create_calendar_event events event_id title s m description location
  = (Return text, events') →
  (delete_calendar_event events' event_id).2 = events.
Proof.
  intros Hnew Hc.
  rewrite (proj1 (delete_calendar_event_spec events' event_id)).
  unfold create_calendar_event in Hc.
  destruct (fromisoformat s) as [start|];
    [|simplify_eq; by apply filter_other].
  destruct (timedelta_minutes m ≫= _) as [ne|]; simplify_eq.
  rewrite filter_app, filter_other by done.
  rewrite filter_cons_False by (simpl; intros ?; done).
  by rewrite filter_nil, app_nil_r.
Qed.

Lemma create_then_delete_witness :
  let events :=
    (create_calendar_event [] "e1" "Standup" "2024-01-01T09:00:00" 30
                           None None).2 in
  (delete_calendar_event
     (create_calendar_event events "e2" "Retro" "2024-01-02T15:00:00" 45
                            None None).2 "e2").2
  = events.
Proof.
  intros events.
  apply (create_then_delete events "e2" "Retro" "2024-01-02T15:00:00" 45
           None None "Calendar event created with ID: e2").
  - vm_compute. intros [?|?%elem_of_nil]%elem_of_cons; done.
  - vm_compute. reflexivity.
Defined.

Lemma update_event_fields e event_id start_time duration_minutes :
  let e' := (update_event e event_id start_time duration_minutes).2 in
  id e' = id e ∧ title e' = title e
  ∧ description e' = description e ∧ location e' = location e.
Proof.
  unfold update_event, shift_start, override_duration.
  destruct start_time as [s|]; [destruct (fromisoformat s) as [ns|]|];
    [destruct (datetime_add ns _)| |]; simpl; try done.
  all: destruct duration_minutes as [m|]; [case_decide|]; simpl; try done.
  all: destruct (timedelta_minutes m ≫= _); simpl; done.
Qed.

(** [update_calendar_event_time] changes nothing but start and end
    times, and those only of events that carry the identifier: however
    the call ends, the events keep their number, order, identifiers,
    titles, descriptions and locations, and an event with another
    identifier is exactly as before. *)
Theorem update_calendar_event_time_frame events event_id start_time
    duration_minutes :
  let events' := (update_calendar_event_time events event_id start_time
                                             duration_minutes).2 in
  (λ e, (id e, title e, description e, location e)) <$> events'
  = (λ e, (id e, title e, description e, location e)) <$> events
  ∧ filter (λ e, id e ≠ event_id) events'
    = filter (λ e, id e ≠ event_id) events.
Proof.
  induction events as [|e events [IH1 IH2]]; [done|]. simpl.
  case_decide as Hid.
  - destruct (update_event e event_id start_time duration_minutes)
      as [out e1] eqn:He.
    pose proof (update_event_fields e event_id start_time duration_minutes)
      as (H1 & H2 & H3 & H4).
    rewrite He in H1, H2, H3, H4. simpl in *. split.
    + by rewrite H1, H2, H3, H4.
    + rewrite !filter_cons_False; [done|intros ?; congruence..].
  - destruct (update_calendar_event_time events event_id start_time
                duration_minutes) as [out rest].
    csimpl in *. split; [by rewrite IH1|].
    by rewrite !filter_cons_True, IH2 by done.
Qed.

Lemma Forall_kept (P Q : CalendarEvent → Prop) `{!∀ e, Decision (Q e)} events :
  Forall P events → Forall P (filter Q events).
Proof.
  rewrite !Forall_forall. intros HP e [_ He]%list_elem_of_filter. auto.
Qed.

(** A call that returns keeps every event from ending before it starts:
    [create_calendar_event] when the duration is not negative,
    [update_calendar_event_time] and [delete_calendar_event] always. *)
Theorem returning_calls_keep_order events :
  Forall ordered events →
  (∀ event_id title s m description location text events',
     0 ≤ m →
     create_calendar_event events event_id title s m description location
     = (Return text, events') → Forall ordered events')
  ∧ (∀ event_id start_time duration_minutes text events',
     update_calendar_event_time events event_id start_time duration_minutes
     = (Return text, events') → Forall ordered events')
  ∧ (∀ event_id, Forall ordered (delete_calendar_event events event_id).2).
Proof.
  intros Ho. split_and!.
  - intros. by eapply calendar_facts.ordered_create.
  - intros. by eapply calendar_facts.ordered_update.
  - intros event_id.
    rewrite (proj1 (delete_calendar_event_spec events event_id)).
    by apply Forall_kept.
Qed.

Lemma returning_calls_keep_order_witness :
  let events :=
    (create_calendar_event [] "e1" "Standup" "2024-01-01T09:00:00" 30
                           None None).2 in
  Forall ordered
    (update_calendar_event_time events "e1" (Some "2024-01-01T10:00:00")
                                (Some 0)).2.
Proof.
  intros events.
  assert (Ho : Forall ordered events)
    by (repeat constructor; vm_compute; discriminate).
  destruct (returning_calls_keep_order events Ho)
    as (_ & Hupd & _).
  eapply (Hupd "e1" (Some "2024-01-01T10:00:00") (Some 0)).
  vm_compute. reflexivity.
Defined.

(** A call that returns keeps every event a whole number of minutes
    long, which is where the float quotient of the start shift is
    exact. *)
Theorem returning_calls_keep_whole_minutes events :
  Forall whole_minutes events →
  (∀ event_id title s m description location text events',
     create_calendar_event events event_id title s m description location
     = (Return text, events') → Forall whole_minutes events')
  ∧ (∀ event_id start_time duration_minutes text events',
     update_calendar_event_time events event_id start_time duration_minutes
     = (Return text, events') → Forall whole_minutes events')
  ∧ (∀ event_id,
     Forall whole_minutes (delete_calendar_event events event_id).2).
Proof.
  intros Ho. split_and!.
  - intros. by eapply calendar_facts.whole_minutes_create.
  - intros. by eapply calendar_facts.whole_minutes_update.
  - intros event_id.
    rewrite (proj1 (delete_calendar_event_spec events event_id)).
    by apply Forall_kept.
Qed.

Lemma returning_calls_keep_whole_minutes_witness :
  let events :=
    (create_calendar_event [] "e1" "Standup" "2024-01-01T09:00:00.250000" 30
                           None None).2 in
  Forall whole_minutes
    (update_calendar_event_time events "e1" (Some "2024-01-01T10:00:01")
                                None).2.
Proof.
  intros events.
  assert (Ho : Forall whole_minutes events)
    by (repeat constructor; vm_compute; reflexivity).
  destruct (returning_calls_keep_whole_minutes events Ho)
    as (_ & Hupd & _).
  eapply (Hupd "e1" (Some "2024-01-01T10:00:01") None).
  vm_compute. reflexivity.
Defined.

End calendar_more.

(** ** The gateway's view of the calendar *)

Module gateway_calendar.
Import calendar_tools.

(** On the same list, [get_calendar] selects the events
    [list_calendar_events] selects, for every date argument: all of them
    without a date, with an empty one or with one that does not parse,
    those of the day otherwise. *)
Theorem get_calendar_selects_like_tool
    (events : list CalendarEvent) (date : option string) :
  main_calendar.get_calendar events date
  = main_calendar.CalendarEvent_of <$> list_calendar_events events date.
Proof.
  unfold main_calendar.get_calendar.
  destruct date as [[|a s]|]; [done| |done].
  destruct (fromisoformat (String a s)) as [d|] eqn:Hd.
  - by rewrite (calendar_facts.list_calendar_events_filter _ _ _ Hd).
  - unfold list_calendar_events. by rewrite Hd.
Qed.

End gateway_calendar.

(** ** Text of a datetime, there and back *)

Module datetime_text.
Import calendar_tools main_calendar.


Lemma cycle_checked_upto_spec n :
  ∃ b, cycle_checked_upto n = (Z.of_N n, b)
       ∧ (b = true → ∀ r, 0 ≤ r < Z.of_N n → cycle_day_ok r = true).
Proof.
  induction n as [|n (b & Hit & Hb)] using N.peano_ind.
  - exists true. split; [done|]. intros; lia.
  - unfold cycle_checked_upto in *. rewrite N.iter_succ, Hit.
    exists (b && cycle_day_ok (Z.of_N n)). split; [f_equal; lia|].
    intros [-> Hok]%andb_true_iff r Hr.
    destruct (decide (r = Z.of_N n)) as [->|]; [done|]. apply Hb; [done|lia].
Qed.

Lemma cycle_checked : cycle_checked_upto 146097 = (_DI400Y, true).
Proof. vm_compute. reflexivity. Qed.

Lemma cycle_day r : 0 ≤ r < _DI400Y → cycle_day_ok r = true.
Proof.
  intros Hr. pose proof cycle_checked as Hc. destruct (cycle_checked_upto_spec 146097) as (b & Hit & Hb).
  rewrite Hc in Hit. apply (f_equal snd) in Hit. cbn [snd] in Hit.
  apply Hb; [by symmetry|exact Hr].
Qed.

Lemma is_leap_shift y k : _is_leap (y + 400 * k) = _is_leap y.
Proof.
  unfold _is_leap. apply bool_decide_ext.
  assert ((y + 400 * k) `mod` 4 = y `mod` 4) as ->
    by (Z.div_mod_to_equations; lia).
  assert ((y + 400 * k) `mod` 100 = y `mod` 100) as ->
    by (Z.div_mod_to_equations; lia).
  assert ((y + 400 * k) `mod` 400 = y `mod` 400) as ->
    by (Z.div_mod_to_equations; lia).
  done.
Qed.

Lemma days_in_month_shift y k m :
  _days_in_month (y + 400 * k) m = _days_in_month y m.
Proof. unfold _days_in_month. by rewrite is_leap_shift. Qed.

Lemma days_before_month_shift y k m :
  _days_before_month (y + 400 * k) m = _days_before_month y m.
Proof.
  unfold _days_before_month.
  induction (seqZ 1 (m - 1)) as [|x l IH]; [done|]; simpl.
  by rewrite IH, days_in_month_shift.
Qed.

Lemma ymd2ord_shift y k m d :
  _ymd2ord (y + 400 * k) m d = _ymd2ord y m d + _DI400Y * k.
Proof.
  unfold _ymd2ord, _days_before_year, _DI400Y.
  rewrite days_before_month_shift. cbv zeta.
  Z.div_mod_to_equations. lia.
Qed.

Lemma ord2ymd_shift r k :
  0 ≤ r < _DI400Y →
  _ord2ymd (r + 1 + _DI400Y * k)
  = let '(y, m, d) := _ord2ymd (r + 1) in (y + 400 * k, m, d).
Proof.
  intros Hr. unfold _ord2ymd. cbv zeta.
  replace ((r + 1 + _DI400Y * k - 1) `div` _DI400Y) with k
    by (unfold _DI400Y in *; Z.div_mod_to_equations; lia).
  replace ((r + 1 + _DI400Y * k - 1) `mod` _DI400Y) with r
    by (unfold _DI400Y in *; Z.div_mod_to_equations; lia).
  replace ((r + 1 - 1) `div` _DI400Y) with 0
    by (unfold _DI400Y in *; Z.div_mod_to_equations; lia).
  replace ((r + 1 - 1) `mod` _DI400Y) with r
    by (unfold _DI400Y in *; Z.div_mod_to_equations; lia).
  repeat case_decide; f_equal; f_equal; lia.
Qed.

Lemma ord2ymd_spec n :
  1 ≤ n ≤ MAXORDINAL →
  ∃ y m d, _ord2ymd n = (y, m, d)
           ∧ 1 ≤ y ≤ 9999 ∧ 1 ≤ m ≤ 12 ∧ 1 ≤ d ≤ _days_in_month y m
           ∧ _ymd2ord y m d = n.
Proof.
  intros Hn. unfold MAXORDINAL in Hn.
  set (k := (n - 1) `div` _DI400Y). set (r := (n - 1) `mod` _DI400Y).
  assert (Hk : 0 ≤ k ≤ 24)
    by (unfold k, _DI400Y; Z.div_mod_to_equations; lia).
  assert (Hr : 0 ≤ r < _DI400Y)
    by (unfold r, _DI400Y; Z.div_mod_to_equations; lia).
  assert (Hnr : n = r + 1 + _DI400Y * k)
    by (unfold r, k, _DI400Y; Z.div_mod_to_equations; lia).
  pose proof (cycle_day r Hr) as Hok. unfold cycle_day_ok in Hok.
  assert (Ho : _ord2ymd n = _ord2ymd (r + 1 + _DI400Y * k))
    by (f_equal; exact Hnr).
  rewrite Ho, (ord2ymd_shift r k Hr).
  destruct (_ord2ymd (r + 1)) as [[y m] d].
  apply bool_decide_eq_true in Hok as (Hy & Hm & Hd & Hord & Hlast).
  exists (y + 400 * k), m, d. split; [done|].
  rewrite days_in_month_shift, ymd2ord_shift, Hord.
  split_and!; try lia.
  destruct (decide (k = 24)) as [->|]; [|lia].
  unfold _DI400Y in *. lia.
Qed.

Lemma digit_digit_char k : 0 ≤ k ≤ 9 → digit (digit_char k) = Some k.
Proof.
  intros Hk.
  assert (k = 0 ∨ k = 1 ∨ k = 2 ∨ k = 3 ∨ k = 4 ∨ k = 5 ∨ k = 6 ∨ k = 7
          ∨ k = 8 ∨ k = 9) as Hcases by lia.
  repeat (destruct Hcases as [->|Hcases]; [reflexivity|]). by subst.
Qed.

Lemma number_pad2 n :
  0 ≤ n ≤ 99 → number [digit_char (n `div` 10); digit_char (n `mod` 10)] = Some n.
Proof.
  intros Hn. unfold number; simpl.
  rewrite !digit_digit_char by (Z.div_mod_to_equations; lia). simpl.
  f_equal. Z.div_mod_to_equations; lia.
Qed.

Lemma number_pad4 n :
  0 ≤ n ≤ 9999 →
  number [digit_char (n `div` 1000); digit_char ((n `div` 100) `mod` 10);
          digit_char ((n `div` 10) `mod` 10); digit_char (n `mod` 10)]
  = Some n.
Proof.
  intros Hn. unfold number; simpl.
  rewrite !digit_digit_char by (Z.div_mod_to_equations; lia). simpl.
  f_equal. Z.div_mod_to_equations; lia.
Qed.

Lemma number_pad6 n :
  0 ≤ n ≤ 999999 →
  number [digit_char (n `div` 100000); digit_char ((n `div` 10000) `mod` 10);
          digit_char ((n `div` 1000) `mod` 10);
          digit_char ((n `div` 100) `mod` 10);
          digit_char ((n `div` 10) `mod` 10); digit_char (n `mod` 10)]
  = Some n.
Proof.
  intros Hn. unfold number; simpl.
  rewrite !digit_digit_char by (Z.div_mod_to_equations; lia). simpl.
  f_equal. Z.div_mod_to_equations; lia.
Qed.

Lemma fromisoformat_text y m d H M S us :
  0 ≤ y ≤ 9999 → 0 ≤ m ≤ 99 → 0 ≤ d ≤ 99 →
  0 ≤ H ≤ 99 → 0 ≤ M ≤ 99 → 0 ≤ S ≤ 99 → 0 ≤ us ≤ 999999 →
  fromisoformat
    (String.string_of_list_ascii
       (pad4 y ++ ["-"%char] ++ pad2 m ++ ["-"%char] ++ pad2 d
        ++ ["T"%char] ++ pad2 H ++ [":"%char] ++ pad2 M
        ++ [":"%char] ++ pad2 S
        ++ (if decide (us = 0) then [] else "."%char :: pad6 us)))
  = make_datetime y m d H M S us.
Proof.
  intros Hy Hm Hd HH HM HS Hus. unfold fromisoformat.
  rewrite String.list_ascii_of_string_of_list_ascii.
  cbn [pad4 pad2 app take drop].
  rewrite !bool_decide_eq_true_2 by done. cbn [andb].
  rewrite number_pad4, !number_pad2 by done. cbn [mbind option_bind].
  unfold parse_time.
  rewrite !bool_decide_eq_true_2 by done. cbn [andb].
  rewrite !number_pad2 by done. cbn [mbind option_bind].
  case_decide as Hz.
  - by subst.
  - cbn [pad6]. rewrite bool_decide_eq_true_2 by done.
    rewrite number_pad6 by done. done.
Qed.

Lemma days_in_month_le y m : _days_in_month y m ≤ 31.
Proof.
  unfold _days_in_month. repeat case_decide; try destruct (_is_leap y); lia.
Qed.

Lemma time_fields t :
  0 ≤ t < 86400000000 →
  0 ≤ t `div` 3600000000 ≤ 23
  ∧ 0 ≤ (t `div` 60000000) `mod` 60 ≤ 59
  ∧ 0 ≤ (t `div` 1000000) `mod` 60 ≤ 59
  ∧ 0 ≤ t `mod` 1000000 ≤ 999999
  ∧ ((t `div` 3600000000 * 60 + (t `div` 60000000) `mod` 60) * 60
     + (t `div` 1000000) `mod` 60) * 1000000 + t `mod` 1000000 = t.
Proof. intros Ht. Z.div_mod_to_equations. lia. Qed.

Lemma day_fields d :
  0 ≤ d < 3652059 * 86400000000 →
  1 ≤ d `div` 86400000000 + 1 ≤ 3652059
  ∧ 0 ≤ d `mod` 86400000000 < 86400000000
  ∧ d `div` 86400000000 * 86400000000 + d `mod` 86400000000 = d.
Proof. intros Hd. Z.div_mod_to_equations. lia. Qed.

(** A datetime printed by [isoformat] and parsed by [fromisoformat] is
    the datetime again. *)
Theorem fromisoformat_isoformat d :
  datetime_in_range d → fromisoformat (isoformat d) = Some d.
Proof.
  intros Hd. apply day_fields in Hd as (Hday & Ht & Hsum).
  unfold isoformat.
  change us_per_day with 86400000000.
  change (3600 * us_per_second) with 3600000000.
  change (60 * us_per_second) with 60000000.
  change us_per_second with 1000000.
  destruct (ord2ymd_spec (d `div` 86400000000 + 1) Hday)
    as (y & m & dd & -> & Hy & Hm & Hdd & Hord).
  pose proof (days_in_month_le y m). cbv zeta.
  destruct (time_fields _ Ht) as (Hh & Hmi & Hs & Hus & Hrec).
  revert Ht Hsum Hh Hmi Hs Hus Hrec.
  generalize (d `mod` 86400000000). intros t.
  generalize (t `div` 3600000000) ((t `div` 60000000) `mod` 60)
    ((t `div` 1000000) `mod` 60) (t `mod` 1000000).
  intros hour minute second us Ht Hsum Hh Hmi Hs Hus Hrec.
  rewrite fromisoformat_text by lia.
  unfold make_datetime. rewrite decide_True by lia.
  f_equal. rewrite Hord.
  change us_per_day with 86400000000. change us_per_second with 1000000.
  lia.
Qed.

Lemma fromisoformat_isoformat_witness :
  isoformat 63839696400000000 = "2024-01-01T09:00:00"
  ∧ fromisoformat (isoformat 63839696400000000) = Some 63839696400000000.
Proof.
  split; [vm_compute; reflexivity|].
  apply fromisoformat_isoformat. vm_compute. split; [discriminate|reflexivity].
Defined.


Lemma day_of_year_bounds y m d :
  1 ≤ m ≤ 12 → 1 ≤ d ≤ _days_in_month y m →
  1 ≤ _days_before_month y m + d ≤ 365 + (if _is_leap y then 1 else 0).
Proof.
  intros Hm.
  assert (m = 1 ∨ m = 2 ∨ m = 3 ∨ m = 4 ∨ m = 5 ∨ m = 6 ∨ m = 7 ∨ m = 8
          ∨ m = 9 ∨ m = 10 ∨ m = 11 ∨ m = 12) as Hcases by lia.
  unfold _days_before_month, _days_in_month.
  repeat (destruct Hcases as [->|Hcases];
          [vm_compute seqZ; simpl; destruct (_is_leap y); simpl; lia|]).
  subst. vm_compute seqZ; simpl. destruct (_is_leap y); simpl; lia.
Qed.

Lemma ymd2ord_bounds y m d :
  1 ≤ y ≤ 9999 → 1 ≤ m ≤ 12 → 1 ≤ d ≤ _days_in_month y m →
  1 ≤ _ymd2ord y m d ≤ MAXORDINAL.
Proof.
  intros Hy Hm Hd. pose proof (day_of_year_bounds y m d Hm Hd) as Hdm.
  unfold _ymd2ord, _days_before_year, MAXORDINAL. cbv zeta.
  destruct (_is_leap y) eqn:Hl.
  - apply bool_decide_eq_true in Hl as [H4 _].
    Z.div_mod_to_equations. lia.
  - Z.div_mod_to_equations. lia.
Qed.

Lemma make_datetime_range y m d H M S us dt :
  make_datetime y m d H M S us = Some dt → datetime_in_range dt.
Proof.
  unfold make_datetime. case_decide as Hv; [|done]. intros [= <-].
  destruct Hv as (Hy & Hm & Hd & HH & HM & HS & Hus).
  pose proof (ymd2ord_bounds y m d Hy Hm Hd) as Ho.
  unfold datetime_in_range, MAXORDINAL, us_per_day, us_per_second in *. lia.
Qed.

(** Whatever [fromisoformat] parses is a datetime of the calendar, from
    0001-01-01T00:00:00 to 9999-12-31T23:59:59.999999. *)
Theorem fromisoformat_range s d :
  fromisoformat s = Some d → datetime_in_range d.
Proof.
  unfold fromisoformat.
  destruct (take 10 _) as [|? [|? [|? [|? [|? [|? [|? [|? [|? [|? [|]]]]]]]]]]];
    try done.
  destruct (_ && _); [|done]. intros H.
  apply bind_Some in H as (year & _ & H).
  apply bind_Some in H as (month & _ & H).
  apply bind_Some in H as (day & _ & H).
  apply bind_Some in H as ([[[hour minute] second] microsecond] & _ & H).
  by eapply make_datetime_range.
Qed.

Lemma fromisoformat_range_witness :
  datetime_in_range 315537897599999999
  ∧ fromisoformat "9999-12-31T23:59:59.999999" = Some 315537897599999999.
Proof.
  assert (H : fromisoformat "9999-12-31T23:59:59.999999"
              = Some 315537897599999999) by (vm_compute; reflexivity).
  split; [exact (fromisoformat_range _ _ H)|exact H].
Defined.

End datetime_text.

(** ** Stored times and the texts reported for them *)

Module calendar_range.
Import calendar_tools calendar_invariant.

Implicit Types (events : list CalendarEvent) (e : CalendarEvent).

Lemma update_event_representable e event_id start_time duration_minutes :
  representable e →
  representable (update_event e event_id start_time duration_minutes).2.
Proof.
  intros [Hs He]. unfold update_event.
  assert (H1 : match shift_start e [] start_time with
               | inl (_, e1) | inr (e1, _) => representable e1
               end).
  { unfold shift_start. destruct start_time as [s|]; [|done].
    destruct (fromisoformat s) as [ns|] eqn:Hp; [|done].
    apply datetime_text.fromisoformat_range in Hp.
    destruct (datetime_add ns _) as [ne|] eqn:Hne; [|done].
    by apply calendar_facts.datetime_add_Some in Hne as [Hne ->]. }
  destruct (shift_start e [] start_time) as [[out e1]|[e1 changes]]; [done|].
  destruct H1 as [Hs1 He1].
  unfold override_duration. destruct duration_minutes as [m|].
  - case_decide; [done|].
    destruct (timedelta_minutes m ≫= datetime_add (calendar_tools.start_time e1))
      as [ne|] eqn:Hne; [|done].
    apply calendar_facts.add_minutes_Some in Hne as (_ & Hr & ->).
    by destruct changes.
  - by destruct changes.
Qed.

(** Every time the tools store is a datetime of the calendar: creating,
    updating and deleting keep it so however the call ends, also when it
    ends in an exception. *)
Theorem stored_times_representable events :
  Forall representable events →
  (∀ event_id title s m description location,
     Forall representable
       (create_calendar_event events event_id title s m
                              description location).2)
  ∧ (∀ event_id start_time duration_minutes,
     Forall representable
       (update_calendar_event_time events event_id start_time
                                   duration_minutes).2)
  ∧ (∀ event_id, Forall representable (delete_calendar_event events event_id).2).
Proof.
  intros Hev. split_and!.
  - intros. unfold create_calendar_event.
    destruct (fromisoformat s) as [start|] eqn:Hp; [|done].
    apply datetime_text.fromisoformat_range in Hp.
    destruct (timedelta_minutes m ≫= _) as [ne|] eqn:Hne; [|done].
    apply calendar_facts.add_minutes_Some in Hne as (_ & Hr & ->). simpl.
    apply Forall_app. split; [done|]. by apply Forall_singleton.
  - intros event_id start_time duration_minutes.
    induction Hev as [|e events He Hev IH]; [by constructor|]. simpl.
    case_decide.
    + pose proof (update_event_representable e event_id start_time
                    duration_minutes He).
      destruct (update_event _ _ _ _). by constructor.
    + destruct (update_calendar_event_time events _ _ _). by constructor.
  - intros event_id.
    rewrite (proj1 (calendar_more.delete_calendar_event_spec events event_id)).
    by apply calendar_more.Forall_kept.
Qed.

Lemma stored_times_representable_witness :
  let events :=
    (create_calendar_event [] "e1" "Standup" "2024-01-01T09:00:00" 30
                           None None).2 in
  (update_calendar_event_time events "e1" (Some "9999-12-31T23:59:59")
                              None).1 = Raise OverflowError
  ∧ Forall representable
      (update_calendar_event_time events "e1" (Some "9999-12-31T23:59:59")
                                  None).2.
Proof.
  intros events. split; [vm_compute; reflexivity|].
  apply (stored_times_representable events).
  repeat constructor; vm_compute; try discriminate; reflexivity.
Defined.



(** [list_calendar_events] with the start text the gateway reports for
    a stored event returns that event. *)
Theorem list_by_reported_start events e :
  e ∈ events → representable e →
  e ∈ list_calendar_events events
        (Some (main_calendar.start_time (main_calendar.CalendarEvent_of e))).
Proof.
  intros Hin [Hs _].
  change (main_calendar.start_time (main_calendar.CalendarEvent_of e))
    with (main_calendar.isoformat (start_time e)).
  rewrite (calendar_facts.list_calendar_events_filter _ _ (start_time e))
    by (by apply datetime_text.fromisoformat_isoformat).
  by apply list_elem_of_filter.
Qed.

Lemma list_by_reported_start_witness :
  let e0 := mkCalendarEvent "e1" "Standup" 63839696400000000
              63839698200000000 None None in
  e0 ∈ list_calendar_events [e0] (Some "2024-01-01T09:00:00").
Proof.
  intros e0. apply (list_by_reported_start [e0] e0).
  - apply list_elem_of_here.
  - split; vm_compute; (split; [discriminate|reflexivity]).
Defined.

(** Every entry [get_calendar] returns stems from a stored event, with
    its identifier, title, description and location, and the two texts
    parse back to the stored start and end. *)
Theorem get_calendar_times_parse_back events date j :
  Forall representable events →
  j ∈ main_calendar.get_calendar events date →
  ∃ e, e ∈ events
       ∧ main_calendar.id j = id e ∧ main_calendar.title j = title e
       ∧ main_calendar.description j = description e
       ∧ main_calendar.location j = location e
       ∧ fromisoformat (main_calendar.start_time j) = Some (start_time e)
       ∧ fromisoformat (main_calendar.end_time j) = Some (end_time e).
Proof.
  intros Hev Hj.
  assert (∃ e, e ∈ events ∧ j = main_calendar.CalendarEvent_of e)
    as (e & He & ->).
  { unfold main_calendar.get_calendar in Hj.
    apply list_elem_of_fmap in Hj as (e & -> & He). exists e. split; [|done].
    destruct date as [[|a s]|]; [done| |done].
    destruct (fromisoformat _); [|done].
    by apply list_elem_of_filter in He as [_ He]. }
  rewrite Forall_forall in Hev. destruct (Hev e He) as [Hs Hend].
  exists e. split_and!; [done..| |];
    by apply datetime_text.fromisoformat_isoformat.
Qed.

Lemma get_calendar_times_parse_back_witness :
  let events :=
    (create_calendar_event [] "e1" "Standup" "2024-01-01T09:00:00" 30
                           None None).2 in
  ∃ j, main_calendar.get_calendar events (Some "2024-01-01") = [j]
       ∧ main_calendar.start_time j = "2024-01-01T09:00:00"
       ∧ main_calendar.end_time j = "2024-01-01T09:30:00"
       ∧ ∃ e, e ∈ events
              ∧ fromisoformat (main_calendar.start_time j)
                = Some (start_time e).
Proof.
  intros events. eexists. split_and!; [vm_compute; reflexivity..|].
  destruct (get_calendar_times_parse_back events (Some "2024-01-01")
              (main_calendar.CalendarEvent_of
                 (mkCalendarEvent "e1" "Standup" 63839696400000000
                    63839698200000000 None None)))
    as (e & He & _ & _ & _ & _ & Hs & _).
  - repeat constructor; vm_compute; try discriminate; reflexivity.
  - vm_compute. apply list_elem_of_here.
  - exists e. split; [exact He|exact Hs].
Defined.

End calendar_range.
